(** * AnalizadorComplejidades: a shallow embedding of the analysis pipeline

    This development models the Python sources of the complexity analyzer:
    - [src/ast/nodes.py]                    the AST (module [Ast]);
    - [src/analyzer/recurrence_solver.py]   the recursion classifier
                                            ([RecursiveAlgorithmAnalyzer]);
    - [src/analyzer/asymptotic_analyzer.py] the formal asymptotic engine;
    - [src/analyzer/math_analyzer.py]       the symbolic cost pass;
    - [src/analyzer/case_analyzer.py]       the best/worst/average catalog;
    - [src/logic/analysis_orchestrator.py]  the pipeline [process_code].

    Python strings are modelled as [String.string]; non-ASCII characters of
    the sources (such as the glyph of Theta) are stored as their UTF-8 bytes,
    so a Python substring test on them is a byte-substring test here.
    Python exceptions are values of type [exn], and fallible code returns
    [exn + A] ([inl] = raised, [inr] = returned). *)

From Stdlib Require Import String Ascii ZArith List Bool Lia.
From Stdlib Require Import DecimalString DecimalNat.
From Stdlib Require Import Reals Lra.
Import ListNotations.
Open Scope string_scope.

(* ------------------------------------------------------------------ *)
(** ** Python helpers on strings and numbers *)

Module Py.

(** [sub in s] *)
Fixpoint contains (sub s : string) : bool :=
  String.prefix sub s ||
  match s with
  | EmptyString => false
  | String _ s' => contains sub s'
  end.

(** [c.lower()] on one byte (ASCII letters only). *)
Definition lower_ascii (c : ascii) : ascii :=
  let n := nat_of_ascii c in
  if (65 <=? n)%nat && (n <=? 90)%nat then ascii_of_nat (n + 32) else c.

(** [s.lower()] *)
Fixpoint lower (s : string) : string :=
  match s with
  | EmptyString => EmptyString
  | String c s' => String (lower_ascii c) (lower s')
  end.

(** [str(n)] for a non-negative Python int. *)
Definition str_nat (n : nat) : string :=
  NilZero.string_of_uint (Nat.to_uint n).

(** [str(z)] for a Python int. *)
Definition str_Z (z : Z) : string :=
  if (z <? 0)%Z then "-" ++ str_nat (Z.to_nat (- z)) else str_nat (Z.to_nat z).

(** [int(s)] for a string of decimal digits (as matched by [\d+]). *)
Definition int_of_digits (s : string) : nat :=
  match NilEmpty.uint_of_string s with
  | Some u => Nat.of_uint u
  | None => 0
  end.

Definition is_digit (c : ascii) : bool :=
  let n := nat_of_ascii c in (48 <=? n)%nat && (n <=? 57)%nat.

(** Every byte is a decimal digit. *)
Fixpoint all_digits (s : string) : bool :=
  match s with
  | EmptyString => true
  | String c s' => is_digit c && all_digits s'
  end.

(** Greedy [\d*]: the longest digit prefix and the rest. *)
Fixpoint digit_run (s : string) : string * string :=
  match s with
  | EmptyString => (EmptyString, EmptyString)
  | String c s' =>
      if is_digit c then let (d, r) := digit_run s' in (String c d, r)
      else (EmptyString, s)
  end.

(** [re.search(r'n\^(\d+)', s).group(1)] *)
Fixpoint search_n_pow (s : string) : option string :=
  match s with
  | EmptyString => None
  | String c s' =>
      let here :=
        match s' with
        | String c2 s'' =>
            if Ascii.eqb c "n" && Ascii.eqb c2 "^" then
              match digit_run s'' with
              | (EmptyString, _) => None
              | (d, _) => Some d
              end
            else None
        | EmptyString => None
        end in
      match here with
      | Some d => Some d
      | None => search_n_pow s'
      end
  end.

(** [re.search(r'(\d+)T\(n/(\d+)\)', s)]: groups 1 and 2. *)
Fixpoint search_aTnb (s : string) : option (string * string) :=
  match s with
  | EmptyString => None
  | String _ s' =>
      let here :=
        match digit_run s with
        | (EmptyString, _) => None
        | (a, rest) =>
            if String.prefix "T(n/" rest then
              match digit_run (String.substring 4 (String.length rest) rest) with
              | (EmptyString, _) => None
              | (b, rest2) =>
                  if String.prefix ")" rest2 then Some (a, b) else None
              end
            else None
        end in
      match here with
      | Some m => Some m
      | None => search_aTnb s'
      end
  end.

(** The one-character string ["\n"]. *)
Definition newline : string := String (ascii_of_nat 10) EmptyString.

(** [", ".join] style helper: [sep.join(l)]. *)
Fixpoint join (sep : string) (l : list string) : string :=
  match l with
  | [] => ""
  | [x] => x
  | x :: l' => x ++ sep ++ join sep l'
  end.

End Py.

(* ------------------------------------------------------------------ *)
(** ** The AST ([src/ast/nodes.py]) *)

Module Ast.

#[local] Set Warnings "-register-all".

(** One constructor per node class of [nodes.py], with the fields in the
    order of its [__init__].  [Assignment.name] holds a Python [str] for a
    plain target ([Name]) or an [ArrayAccess]/[MatrixAccess] node
    ([transformer.py]); an absent [else] body ([None]) is [None].
    Statement blocks are Python lists ([block] of [transformer.py]). *)
Inductive node : Type :=
| Program (functions : list node)
| Function (name : string) (params : list string) (body : list node)
| Assignment (name : node) (expr : node)
| For (var : string) (start : node) (end_ : node) (body : list node)
| While (condition : node) (body : list node)
| If (condition : node) (then_body : list node) (else_body : option (list node))
| Repeat (body : list node) (condition : node)
| Return (expr : node)
| Call (name : string) (args : list node)
| BinOp (left : node) (op : string) (right : node)
| Var (name : string)
| Number (value : Z)
| Condition (left : node) (op : string) (right : node)
| ArrayAccess (name : string) (index : node)
| MatrixAccess (name : string) (row_index : node) (col_index : node)
| ArrayDeclaration (name : string) (size : node)
| MatrixDeclaration (name : string) (rows : node) (cols : node)
| BoolOp (left : node) (op : string) (right : node)
| UnaryOp (op : string) (operand : node)
| Boolean (value : bool)
| Name (s : string).

(** [else_body or []] *)
Definition opt_list (o : option (list node)) : list node :=
  match o with Some l => l | None => [] end.

(** Induction through the nested statement lists. *)
Section node_ind_nested.
Variable P : node -> Prop.
Hypothesis HProgram : forall fs, Forall P fs -> P (Program fs).
Hypothesis HFunction : forall n ps b, Forall P b -> P (Function n ps b).
Hypothesis HAssignment : forall t e, P t -> P e -> P (Assignment t e).
Hypothesis HFor : forall v s e b, P s -> P e -> Forall P b -> P (For v s e b).
Hypothesis HWhile : forall c b, P c -> Forall P b -> P (While c b).
Hypothesis HIf : forall c t e, P c -> Forall P t -> Forall P (opt_list e) ->
  P (If c t e).
Hypothesis HRepeat : forall b c, Forall P b -> P c -> P (Repeat b c).
Hypothesis HReturn : forall e, P e -> P (Return e).
Hypothesis HCall : forall n a, Forall P a -> P (Call n a).
Hypothesis HBinOp : forall l o r, P l -> P r -> P (BinOp l o r).
Hypothesis HVar : forall n, P (Var n).
Hypothesis HNumber : forall z, P (Number z).
Hypothesis HCondition : forall l o r, P l -> P r -> P (Condition l o r).
Hypothesis HArrayAccess : forall n i, P i -> P (ArrayAccess n i).
Hypothesis HMatrixAccess : forall n r c, P r -> P c -> P (MatrixAccess n r c).
Hypothesis HArrayDeclaration : forall n s, P s -> P (ArrayDeclaration n s).
Hypothesis HMatrixDeclaration : forall n r c, P r -> P c ->
  P (MatrixDeclaration n r c).
Hypothesis HBoolOp : forall l o r, P l -> P r -> P (BoolOp l o r).
Hypothesis HUnaryOp : forall o e, P e -> P (UnaryOp o e).
Hypothesis HBoolean : forall b, P (Boolean b).
Hypothesis HName : forall s, P (Name s).

Fixpoint node_ind' (n : node) : P n :=
  let fix lst (l : list node) : Forall P l :=
    match l with
    | [] => Forall_nil P
    | x :: l' => Forall_cons x (node_ind' x) (lst l')
    end in
  match n with
  | Program fs => HProgram fs (lst fs)
  | Function nm ps b => HFunction nm ps b (lst b)
  | Assignment t e => HAssignment t e (node_ind' t) (node_ind' e)
  | For v s e b => HFor v s e b (node_ind' s) (node_ind' e) (lst b)
  | While c b => HWhile c b (node_ind' c) (lst b)
  | If c t e => HIf c t e (node_ind' c) (lst t)
      (match e as o return Forall P (opt_list o) with
       | Some l => lst l | None => Forall_nil P end)
  | Repeat b c => HRepeat b c (lst b) (node_ind' c)
  | Return e => HReturn e (node_ind' e)
  | Call nm a => HCall nm a (lst a)
  | BinOp l o r => HBinOp l o r (node_ind' l) (node_ind' r)
  | Var nm => HVar nm
  | Number z => HNumber z
  | Condition l o r => HCondition l o r (node_ind' l) (node_ind' r)
  | ArrayAccess nm i => HArrayAccess nm i (node_ind' i)
  | MatrixAccess nm r c => HMatrixAccess nm r c (node_ind' r) (node_ind' c)
  | ArrayDeclaration nm s => HArrayDeclaration nm s (node_ind' s)
  | MatrixDeclaration nm r c =>
      HMatrixDeclaration nm r c (node_ind' r) (node_ind' c)
  | BoolOp l o r => HBoolOp l o r (node_ind' l) (node_ind' r)
  | UnaryOp o e => HUnaryOp o e (node_ind' e)
  | Boolean b => HBoolean b
  | Name s => HName s
  end.
End node_ind_nested.

(** [hasattr(node, 'op')] and [node.op] *)
Definition op_of (n : node) : option string :=
  match n with
  | BinOp _ o _ | Condition _ o _ | BoolOp _ o _ | UnaryOp o _ => Some o
  | _ => None
  end.

(** [node.right] when the node has a [right] field *)
Definition right_of (n : node) : option node :=
  match n with
  | BinOp _ _ r | Condition _ _ r | BoolOp _ _ r => Some r
  | _ => None
  end.

(** [node.value] when the node has a [value] field; a Python [bool] is the
    int 0 or 1 (it hashes and compares equal to it in a [set]). *)
Definition value_of (n : node) : option Z :=
  match n with
  | Number z => Some z
  | Boolean b => Some (if b then 1%Z else 0%Z)
  | _ => None
  end.

(** [node.body] for the classes that have a [body] attribute. *)
Definition body_of (n : node) : option (list node) :=
  match n with
  | Function _ _ b | For _ _ _ b | While _ b | Repeat b _ => Some b
  | _ => None
  end.

End Ast.
Import Ast.

(** Python exceptions: the class name and the message ([str(e)]). *)
Record exn : Type := mk_exn { exn_class : string; exn_msg : string }.

(* ------------------------------------------------------------------ *)
(** ** Recursion classifier ([RecursiveAlgorithmAnalyzer]) *)

Module Classifier.

(** One entry of [recursive_calls]: the dict built in
    [_find_recursive_calls]; ['node'] is the [Call], kept here as its
    argument list (its name is the function's own name). *)
Record call_info : Type := mk_call_info {
  ci_depth : nat;
  ci_arguments : nat;
  ci_args : list node
}.

(** [_find_recursive_calls.traverse]: the visitor descends into list
    items, [body] (depth + 1), [If] condition and branches (depth + 1),
    [Return.expr], [Assignment.expr], both sides of a [BinOp] and the
    arguments of a [Call]; it does not look inside [Condition], [BoolOp],
    [UnaryOp], array accesses, [For] bounds or loop conditions. *)
Fixpoint traverse (fname : string) (n : node) (depth : nat) {struct n}
  : list call_info :=
  let here :=
    match n with
    | Call nm args =>
        if String.eqb nm fname then [mk_call_info depth (length args) args]
        else []
    | _ => []
    end in
  let from_body :=
    match n with
    | Function _ _ b | For _ _ _ b | While _ b | Repeat b _ =>
        flat_map (fun s => traverse fname s (S depth)) b
    | _ => []
    end in
  let rest :=
    match n with
    | If c t e =>
        (traverse fname c depth
         ++ flat_map (fun s => traverse fname s (S depth)) t
         ++ match e with
            | Some l => flat_map (fun s => traverse fname s (S depth)) l
            | None => []
            end)%list
    | Return e => traverse fname e depth
    | Assignment _ e => traverse fname e depth
    | BinOp l _ r => (traverse fname l depth ++ traverse fname r depth)%list
    | Call _ args => flat_map (fun a => traverse fname a depth) args
    | _ => []
    end in
  (here ++ from_body ++ rest)%list.

(** [_find_recursive_calls(function_node, func_name)] *)
Definition find_recursive_calls (function_node : node) (func_name : string)
  : list call_info :=
  traverse func_name function_node 0.

(** [_is_recursive_call] *)
Definition is_recursive_call (fname : string) (e : node) : bool :=
  match e with
  | Call nm _ => String.eqb nm fname
  | _ => false
  end.

(** [_node_contains_recursive_return]: a [Return] or [Assignment] whose
    [expr] is a direct recursive [Call], searched through nested [If]s and
    loop bodies. *)
Fixpoint node_contains_recursive_return (fname : string) (n : node) : bool :=
  match n with
  | Return e => is_recursive_call fname e
  | If _ t e =>
      existsb (node_contains_recursive_return fname) t
      || match e with
         | Some l => existsb (node_contains_recursive_return fname) l
         | None => false
         end
  | Function _ _ b | For _ _ _ b | While _ b | Repeat b _ =>
      existsb (node_contains_recursive_return fname) b
  | Assignment _ e => is_recursive_call fname e
  | _ => false
  end.

(** [_branch_has_recursive_return] *)
Definition branch_has_recursive_return (block : list node) (fname : string) : bool :=
  existsb (node_contains_recursive_return fname) block.

(** [traverse] inside [_has_mutually_exclusive_recursive_returns]. *)
Fixpoint excl_traverse (fname : string) (n : node) : bool :=
  match n with
  | If _ t e =>
      (branch_has_recursive_return t fname
       && branch_has_recursive_return (opt_list e) fname)
      || existsb (excl_traverse fname) t
      || match e with
         | Some l => existsb (excl_traverse fname) l
         | None => false
         end
  | Function _ _ b | For _ _ _ b | While _ b | Repeat b _ =>
      existsb (excl_traverse fname) b
  | _ => false
  end.

(** [_has_mutually_exclusive_recursive_returns(function_node)] *)
Definition has_mutually_exclusive_recursive_returns (function_node : node) : bool :=
  match function_node with
  | Function fname _ b => existsb (excl_traverse fname) b
  | _ => match body_of function_node with
         | Some b => existsb (excl_traverse "") b
         | None => false
         end
  end.

(** [_argument_mentions_midpoint] *)
Fixpoint argument_mentions_midpoint (arg : node) : bool :=
  match arg with
  | Var nm => Py.contains "mid" (Py.lower nm)
  | BinOp l _ r => argument_mentions_midpoint l || argument_mentions_midpoint r
  | _ => false
  end.

(** The dict returned by [_analyze_call_pattern]; keys it leaves out read
    as [False] through [.get(key, False)]. *)
Record pattern_info : Type := mk_pattern_info {
  pattern_type : string;
  has_division : bool;
  has_subtraction : bool;
  has_multiple_subtractions : bool;
  call_count : option nat
}.

Definition op_is (o : string) (arg : node) : bool :=
  match op_of arg with Some o' => String.eqb o' o | None => false end.

(** [subtraction_values] contributed by one argument. *)
Definition subtraction_value (arg : node) : list Z :=
  if op_is "/" arg then []
  else if op_is "-" arg then
    match right_of arg with
    | Some r => match value_of r with Some v => [v] | None => [] end
    | None => []
    end
  else [].

(** [_analyze_call_pattern(recursive_calls, exclusive_branch_calls)] *)
Definition analyze_call_pattern (calls : list call_info) (exclusive : bool)
  : pattern_info :=
  let num_calls := length calls in
  let args := flat_map ci_args calls in
  let div := existsb (op_is "/") args in
  let sub := existsb (fun a => negb (op_is "/" a) && op_is "-" a) args in
  let mid := existsb argument_mentions_midpoint args in
  let values := flat_map subtraction_value args in
  let multi := (2 <=? length values)%nat
               && (2 <=? length (nodup Z.eq_dec values))%nat in
  let no_operators_in_args := negb div && negb sub in
  let mk p := mk_pattern_info p div sub multi None in
  match num_calls with
  | 0 => mk_pattern_info "none" false false false None
  | 1 => if div then mk "divide_conquer" else mk "linear"
  | 2 =>
      if exclusive then mk "binary_exclusive"
      else if multi then mk "binary"
      else if div then mk "divide_conquer"
      else if no_operators_in_args || mid then mk "divide_conquer"
      else mk "divide_conquer"
  | _ => mk_pattern_info "multiple" div sub multi (Some num_calls)
  end.

(** [_calls_use_size_param] *)
Definition calls_use_size_param (calls : list call_info) (params : list string) : bool :=
  let names := map Py.lower params in
  existsb (fun arg =>
    match arg with
    | BinOp (Var l) o _ =>
        String.eqb o "-" &&
        (existsb (String.eqb (Py.lower l)) names || String.eqb (Py.lower l) "n")
    | _ => false
    end) (flat_map ci_args calls).

(** [_derive_recurrence_relation] *)
Definition derive_recurrence_relation (params : list string)
    (calls : list call_info) (exclusive : bool) : option string :=
  match calls with
  | [] => None
  | _ =>
    if exclusive then Some "T(n) = T(n/2) + O(1)" else
    let num_calls := length calls in
    let pi := analyze_call_pattern calls exclusive in
    let uses_size_param := calls_use_size_param calls params in
    let p := pattern_type pi in
    if String.eqb p "linear" then Some "T(n) = T(n-1) + O(1)"
    else if String.eqb p "binary" then
      if negb (has_multiple_subtractions pi) then Some "T(n) = T(n/2) + O(n)"
      else Some "T(n) = T(n-1) + T(n-2) + O(1)"
    else if String.eqb p "binary_exclusive" then Some "T(n) = T(n/2) + O(1)"
    else if String.eqb p "divide_conquer" then
      if (num_calls =? 2)%nat && has_subtraction pi && negb (has_division pi)
         && uses_size_param then Some "T(n) = 2T(n-1) + O(1)"
      else if (num_calls =? 1)%nat then Some "T(n) = T(n/2) + O(1)"
      else if (num_calls =? 2)%nat then Some "T(n) = 2T(n/2) + O(n)"
      else Some ("T(n) = " ++ Py.str_nat num_calls ++ "T(n/"
                 ++ Py.str_nat num_calls ++ ") + O(n)")
    else if String.eqb p "multiple" then
      let cc := match call_count pi with Some c => c | None => num_calls end in
      Some ("T(n) = " ++ Py.str_nat cc ++ "T(n-1) + O(1)")
    else if (num_calls =? 1)%nat then Some "T(n) = T(n-1) + O(1)"
    else Some ("T(n) = " ++ Py.str_nat num_calls ++ "T(n-1) + O(1)")
  end.

(** The analysis dict of [analyze_recursive_algorithm], restricted to the
    keys read downstream ([estimated_complexity], [work_per_call] and
    [base_cases] are display-only).  The per-instance cache keyed by name
    and body length is not modelled: this is a fresh analyzer. *)
Record rec_info : Type := mk_rec_info {
  function_name : string;
  has_recursion : bool;
  recursive_calls : list call_info;
  ri_pattern_type : string;
  recurrence_relation : option string;
  exclusive_branch_calls : bool
}.

(** [analyze_recursive_algorithm(function_node)] for
    [Function(name, params, body)]. *)
Definition analyze_recursive_algorithm (name : string) (params : list string)
    (body : list node) : rec_info :=
  let fnode := Function name params body in
  let calls := find_recursive_calls fnode name in
  let exclusive := has_mutually_exclusive_recursive_returns fnode in
  match calls with
  | [] => mk_rec_info name false [] "none" None exclusive
  | _ =>
      let pi := analyze_call_pattern calls exclusive in
      mk_rec_info name true calls (pattern_type pi)
        (derive_recurrence_relation params calls exclusive) exclusive
  end.

End Classifier.

(* ------------------------------------------------------------------ *)
(** ** Formal asymptotic engine ([AsymptoticAnalyzer]) *)

Module Asymptotic.
Import Classifier.

(** [RecurrenceEquation]; [base_cases] is the dict as an association
    list in insertion order. *)
Record recurrence_equation : Type := mk_rec {
  equation : string;
  ra : option nat;
  rb : option nat;
  f_n : string;
  base_cases : list (string * string);
  method_used : string
}.

(** [AsymptoticBound]; [confidence] in hundredths ([0.95] is [95]).  The
    free-text [explanation] is not modelled. *)
Record asymptotic_bound : Type := mk_bound {
  complexity : string;
  notation : string;
  confidence : nat
}.

(** [str(x)] of a node, as read by [_has_middle_calculation] on an
    [Assignment] target: the plain name, or the default object repr. *)
Definition py_str (n : node) : string :=
  match n with
  | Name s => s
  | ArrayAccess _ _ => "<src.ast.nodes.ArrayAccess object>"
  | MatrixAccess _ _ _ => "<src.ast.nodes.MatrixAccess object>"
  | _ => "<src.ast.nodes.Node object>"
  end.

(** The [name] attribute of a node whose class has one, as a string. *)
Definition name_attr (n : node) : option string :=
  match n with
  | Function s _ _ | Call s _ | Var s | ArrayAccess s _ | MatrixAccess s _ _
  | ArrayDeclaration s _ | MatrixDeclaration s _ _ => Some s
  | Assignment (Name s) _ => Some s
  | _ => None
  end.

Definition attribute_error : exn :=
  mk_exn "AttributeError" "object has no attribute 'name'".

(** [_count_loop_depth(node, current_depth)] *)
Fixpoint count_loop_depth (n : node) (current_depth : nat) : nat :=
  match n with
  | For _ _ _ b | While _ b | Repeat b _ =>
      fold_right Nat.max current_depth
        (map (fun s => count_loop_depth s (S current_depth)) b)
  | Function _ _ b | Program b =>
      fold_right Nat.max current_depth
        (map (fun s => count_loop_depth s current_depth) b)
  | If _ t e =>
      fold_right Nat.max
        (fold_right Nat.max current_depth
           (map (fun s => count_loop_depth s current_depth) t))
        (match e with
         | Some l => map (fun s => count_loop_depth s current_depth) l
         | None => []
         end)
  | _ => current_depth
  end.

(** [_has_middle_calculation] *)
Fixpoint has_middle_calculation (n : node) : bool :=
  let here :=
    match n with
    | Assignment t e =>
        let var_name := Py.lower (py_str t) in
        (Py.contains "middle" var_name || Py.contains "mid" var_name)
        && match op_of e with
           | Some o => String.eqb o "/" || String.eqb o "//"
           | None => false
           end
    | _ => false
    end in
  here ||
  match n with
  | Function _ _ b | For _ _ _ b | While _ b | Repeat b _ =>
      existsb has_middle_calculation b
  | If _ t e =>
      existsb has_middle_calculation t
      || match e with
         | Some l => existsb has_middle_calculation l
         | None => false
         end
  | _ => false
  end.

(** [_has_loop] *)
Fixpoint has_loop (n : node) : bool :=
  match n with
  | For _ _ _ _ | While _ _ | Repeat _ _ => true
  | Function _ _ b => existsb has_loop b
  | If _ t e =>
      existsb has_loop t
      || match e with Some l => existsb has_loop l | None => false end
  | _ => false
  end.

(** [_analyze_iterative(node)] *)
Definition analyze_iterative (n : node) : recurrence_equation :=
  let loop_depth := count_loop_depth n 0 in
  let eq :=
    match loop_depth with
    | 0 => "T(n) = c"
    | 1 => "T(n) = cn"
    | 2 => "T(n) = cn²"
    | d => "T(n) = cn^" ++ Py.str_nat d
    end in
  mk_rec eq None None "c" [("T(0)", "c")] "Loop Analysis".

(** [node.functions[0]] when [node] is a [Program] with functions. *)
Definition first_function (n : node) : option node :=
  match n with
  | Program (f :: _) => Some f
  | _ => None
  end.

(** [_construct_recurrence(node, recursive_info)]; [None] stands for a
    missing [recursive_info]. *)
Definition construct_recurrence (n : node) (info : option rec_info)
  : exn + recurrence_equation :=
  match info with
  | None => inr (analyze_iterative n)
  | Some ri =>
    if negb (has_recursion ri) then inr (analyze_iterative n) else
    let num_calls := length (recursive_calls ri) in
    let p := ri_pattern_type ri in
    if String.eqb p "linear" then
      inr (mk_rec "T(n) = T(n-1) + c" (Some 1) None "c"
             [("T(0)", "c"); ("T(1)", "c")] "Substitution")
    else if String.eqb p "binary" then
      (* [has_fibonacci_decrements] is computed there too, but both of its
         outcomes build the same equation. *)
      let is_binary_search :=
        match first_function n with
        | Some f =>
            match name_attr f with
            | Some nm =>
                let func_name := Py.lower nm in
                inr (Py.contains "busqueda" func_name
                     || Py.contains "search" func_name
                     || Py.contains "binary" func_name
                     || has_middle_calculation f)
            | None => inl attribute_error
            end
        | None => inr false
        end in
      match is_binary_search with
      | inl e => inl e
      | inr true =>
          inr (mk_rec "T(n) = T(n/2) + c" (Some 1) (Some 2) "c"
                 [("T(1)", "c"); ("T(0)", "c")] "Master Theorem")
      | inr false =>
          inr (mk_rec "T(n) = T(n-1) + T(n-2) + c" (Some 2) None "c"
                 [("T(0)", "c"); ("T(1)", "c")] "Recurrence Tree")
      end
    else if String.eqb p "divide_conquer" then
      match recurrence_relation ri with
      | None =>
          inl (mk_exn "TypeError"
                 "expected string or bytes-like object, got 'NoneType'")
      | Some relation =>
          let '(a, b) :=
            match Py.search_aTnb relation with
            | Some (sa, sb) => (Py.int_of_digits sa, Py.int_of_digits sb)
            | None => (num_calls, 2)
            end in
          let has_loop_ :=
            match first_function n with Some f => has_loop f | None => false end in
          let fn :=
            if has_loop_ || Py.contains "O(n)" relation
               || Py.contains "+ n" (Py.lower relation) then "n" else "c" in
          inr (mk_rec ("T(n) = " ++ Py.str_nat a ++ "T(n/" ++ Py.str_nat b
                       ++ ") + " ++ fn)
                 (Some a) (Some b) fn [("T(1)", "c")] "Master Theorem")
      end
    else
      inr (mk_rec ("T(n) = " ++ Py.str_nat num_calls ++ "T(n-1) + c")
             (Some num_calls) None "c" [("T(0)", "c"); ("T(1)", "c")]
             "Substitution")
  end.

(** Python's [round(x)] (half to even), with the float idealised as a real. *)
Definition py_round (x : R) : Z :=
  let z := Int_part x in
  let d := (x - IZR z)%R in
  if Rlt_dec d (1/2) then z
  else if Rlt_dec (1/2) d then (z + 1)%Z
  else if Z.even z then z else (z + 1)%Z.

(** [f"{x:.2f}"] *)
Definition fmt2 (x : R) : string :=
  let am := Z.abs (py_round (x * 100)) in
  (if Rlt_dec x 0 then "-" else "") ++ Py.str_Z (am / 100) ++ "."
  ++ (if (am mod 100 <? 10)%Z then "0" else "") ++ Py.str_Z (am mod 100).

(** [_format_complexity(value)] *)
Definition format_complexity (value : R) : string :=
  let int_val := py_round value in
  if Rlt_dec (Rabs (value - IZR int_val)) (1/100) then
    if (int_val =? 0)%Z then "1"
    else if (int_val =? 1)%Z then "n"
    else "n^" ++ Py.str_Z int_val
  else "n^" ++ fmt2 value.

(** The exponent [c] read off [f_n] in [_apply_master_theorem]. *)
Definition master_degree (fn : string) : nat :=
  if String.eqb fn "c" || String.eqb fn "1" then 0
  else if String.eqb fn "n" then 1
  else if String.eqb fn "n^2" then 2
  else match Py.search_n_pow fn with
       | Some d => Py.int_of_digits d
       | None => 1
       end.

Definition master_epsilon : R := (1/100)%R.

(** [_apply_master_theorem(rec)], with [math.log] as [ln] on the reals;
    [math.log(0)] raises [ValueError] and [math.log(1)] as a divisor
    raises [ZeroDivisionError]. *)
Definition apply_master_theorem (rec : recurrence_equation)
  : exn + asymptotic_bound :=
  match ra rec, rb rec with
  | Some a, Some b =>
    if (a =? 0)%nat || (b =? 0)%nat then inl (mk_exn "ValueError" "math domain error")
    else if (b =? 1)%nat then inl (mk_exn "ZeroDivisionError" "float division by zero")
    else
      let log_b_a := (ln (INR a) / ln (INR b))%R in
      let c := master_degree (f_n rec) in
      let complexity :=
        if Rlt_dec (INR c) (log_b_a - master_epsilon) then
          format_complexity log_b_a
        else if Rlt_dec (Rabs (INR c - log_b_a)) master_epsilon then
          match c with
          | 0 => "log n"
          | 1 => "n log n"
          | _ => "n^" ++ Py.str_nat c ++ " log n"
          end
        else if (c =? 1)%nat then "n"
        else "n^" ++ Py.str_nat c in
      inr (mk_bound complexity "Θ" 95)
  | _, _ => inr (mk_bound "n" "Θ" 70)
  end.

(** [_apply_substitution(rec)] *)
Definition apply_substitution (rec : recurrence_equation) : asymptotic_bound :=
  let a := match ra rec with Some (S k) => S k | _ => 1 end in
  if (a =? 1)%nat then mk_bound "n" "Θ" 95
  else mk_bound (Py.str_nat a ++ "^n") "Θ" 95.

(** [_apply_tree_method(rec)] *)
Definition apply_tree_method (rec : recurrence_equation) : asymptotic_bound :=
  if Py.contains "T(n-1) + T(n-2)" (equation rec) then mk_bound "2^n" "Θ" 90
  else match ra rec with
       | Some a => if (1 <? a)%nat then mk_bound (Py.str_nat a ++ "^n") "Θ" 90
                   else mk_bound "n" "Θ" 90
       | None => mk_bound "n" "Θ" 90
       end.

(** [_analyze_loops(rec)] *)
Definition analyze_loops (rec : recurrence_equation) : asymptotic_bound :=
  let eq := equation rec in
  let complexity :=
    if Py.contains "n^" eq then
      match Py.search_n_pow eq with
      | Some power => "n^" ++ power
      | None => "n"
      end
    else if Py.contains "n²" eq then "n^2"
    else if Py.contains "cn" eq || Py.contains "T(n) = n" eq then "n"
    else "1" in
  mk_bound complexity "Θ" 95.

(** [_solve_recurrence(recurrence)] *)
Definition solve_recurrence (rec : recurrence_equation) : exn + asymptotic_bound :=
  let m := method_used rec in
  if String.eqb m "Master Theorem" then apply_master_theorem rec
  else if String.eqb m "Substitution" then inr (apply_substitution rec)
  else if String.eqb m "Recurrence Tree" then inr (apply_tree_method rec)
  else if String.eqb m "Loop Analysis" then inr (analyze_loops rec)
  else inr (mk_bound "n" "O" 50).

(** [analyze_function_node(func_node, recursive_info)] *)
Definition analyze_function_node (func_node : node) (info : option rec_info)
  : exn + (recurrence_equation * asymptotic_bound) :=
  match construct_recurrence func_node info with
  | inl e => inl e
  | inr rec =>
    match solve_recurrence rec with
    | inl e => inl e
    | inr bound =>
      let bound :=
        match info with
        | Some ri =>
            if String.eqb (ri_pattern_type ri) "linear"
               && (String.eqb (complexity bound) "1"
                   || String.eqb (complexity bound) "")
            then mk_bound "n" "Θ" (confidence bound) else bound
        | None => bound
        end in
      inr (rec, bound)
    end
  end.

End Asymptotic.

(* ------------------------------------------------------------------ *)
(** ** Symbolic cost pass ([MathematicalAnalyzer]) *)

Module MathEngine.

(** sympy expressions built by the cost pass.  [CPos s] is a symbol
    created with [positive=True] ([self.n] is [CPos "n"], the While
    iteration count [k] is [CPos "k"]); [CSym s] a plain [Symbol(s)];
    [CT a] the recurrence symbol [T(a)]; [CFun f] the unknown [T_f(n)];
    [CSum body v lo hi] is [Sum(body, (v, lo, hi)).doit()] left
    unevaluated; [CEq l r] is [Eq(l, r)]. *)
Inductive cexpr : Type :=
| CInt (z : Z)
| CPos (s : string)
| CSym (s : string)
| CAdd (a b : cexpr)
| CSub (a b : cexpr)
| CMul (a b : cexpr)
| CDiv (a b : cexpr)
| CMax (a b : cexpr)
| CT (arg : cexpr)
| CFun (f : string)
| CSum (body : cexpr) (var : string) (lo hi : cexpr)
| CEq (lhs rhs : cexpr).

(** sympy's automatic evaluation of [a + b], [a - b], [a * b] on integer
    constants and neutral elements. *)
Definition cadd (a b : cexpr) : cexpr :=
  match a, b with
  | CInt x, CInt y => CInt (x + y)
  | CInt 0, e | e, CInt 0 => e
  | _, _ => CAdd a b
  end.

Definition csub (a b : cexpr) : cexpr :=
  match a, b with
  | CInt x, CInt y => CInt (x - y)
  | e, CInt 0 => e
  | _, _ => CSub a b
  end.

Definition cmul (a b : cexpr) : cexpr :=
  match a, b with
  | CInt x, CInt y => CInt (x * y)
  | CInt 1, e | e, CInt 1 => e
  | _, _ => CMul a b
  end.

(** [_safe_sum]: Python's [sum], starting from the int [0]. *)
Definition safe_sum (l : list cexpr) : cexpr := fold_left cadd l (CInt 0).

(** [_expr_has_recurrence]: does [T(.)] occur? *)
Fixpoint has_T (e : cexpr) : bool :=
  match e with
  | CT _ => true
  | CAdd a b | CSub a b | CMul a b | CDiv a b | CMax a b | CEq a b =>
      has_T a || has_T b
  | CSum b _ lo hi => has_T b || has_T lo || has_T hi
  | _ => false
  end.

Definition class_name (n : node) : string :=
  match n with
  | Program _ => "Program" | Function _ _ _ => "Function"
  | Assignment _ _ => "Assignment" | For _ _ _ _ => "For"
  | While _ _ => "While" | If _ _ _ => "If" | Repeat _ _ => "Repeat"
  | Return _ => "Return" | Call _ _ => "Call" | BinOp _ _ _ => "BinOp"
  | Var _ => "Var" | Number _ => "Number" | Condition _ _ _ => "Condition"
  | ArrayAccess _ _ => "ArrayAccess" | MatrixAccess _ _ _ => "MatrixAccess"
  | ArrayDeclaration _ _ => "ArrayDeclaration"
  | MatrixDeclaration _ _ _ => "MatrixDeclaration"
  | BoolOp _ _ _ => "BoolOp" | UnaryOp _ _ => "UnaryOp"
  | Boolean _ => "Boolean" | Name _ => "str"
  end.

(** [_get_value] *)
Fixpoint get_value (n : node) : cexpr :=
  match n with
  | BinOp l o r =>
      let lv := get_value l in
      let rv := get_value r in
      if String.eqb o "+" then cadd lv rv
      else if String.eqb o "-" then csub lv rv
      else if String.eqb o "*" then cmul lv rv
      else if String.eqb o "/" then CDiv lv rv
      else cadd lv rv
  | Var nm => if String.eqb nm "n" then CPos "n" else CSym nm
  | Number v => CInt v
  | _ => CSym ("val_" ++ class_name n)
  end.

(** [function_costs.get(name, Integer(1))] *)
Fixpoint lookup_cost (fc : list (string * cexpr)) (nm : string) : cexpr :=
  match fc with
  | [] => CInt 1
  | (k, v) :: fc' => if String.eqb k nm then v else lookup_cost fc' nm
  end.

(** [_get_cost(node, current_func_name)] with [self.function_costs] as
    [fc].  Classes without a [_get_cost_<Class>] method ([Repeat],
    [ArrayAccess], [BoolOp], [UnaryOp], [Boolean], declarations, ...) fall
    to [_get_cost_default], the constant [1]. *)
Fixpoint get_cost (fc : list (string * cexpr)) (cur : string) (n : node) : cexpr :=
  match n with
  | Function _ _ b =>
      let body_cost := safe_sum (map (get_cost fc cur) b) in
      if has_T body_cost then CEq (CT (CPos "n")) body_cost else body_cost
  | If c t e =>
      let condition_cost := get_cost fc cur c in
      let then_cost := safe_sum (map (get_cost fc cur) t) in
      let else_cost :=
        match e with
        | Some l => safe_sum (map (get_cost fc cur) l)
        | None => CInt 0
        end in
      let branch_cost :=
        if has_T then_cost && has_T else_cost then CMax then_cost else_cost
        else if has_T then_cost then then_cost
        else if has_T else_cost then else_cost
        else CMax then_cost else_cost in
      cadd condition_cost branch_cost
  | For v s e b =>
      let start_val := get_value s in
      let end_val := get_value e in
      let body_cost := safe_sum (map (get_cost fc cur) b) in
      match body_cost with
      | CInt 0 => CInt 0
      | _ =>
        let total_cost :=
          match start_val, end_val with
          | CInt x, CInt y => cmul (CInt (y - x + 1)) body_cost
          | _, _ => CSum body_cost v start_val end_val
          end in
        cadd total_cost (cadd (get_cost fc cur s) (get_cost fc cur e))
      end
  | While c b =>
      cmul (CPos "k") (cadd (get_cost fc cur c) (safe_sum (map (get_cost fc cur) b)))
  | Assignment _ e => cadd (get_cost fc cur e) (CInt 1)
  | Return e => get_cost fc cur e
  | BinOp l _ r | Condition l _ r =>
      cadd (cadd (get_cost fc cur l) (get_cost fc cur r)) (CInt 1)
  | Call nm args =>
      let arg_costs := safe_sum (map (get_cost fc cur) args) in
      if String.eqb nm cur then
        match args with
        | a :: _ => cadd arg_costs (CT (get_value a))
        | [] => cadd arg_costs (CT (CPos "n"))
        end
      else cadd arg_costs (lookup_cost fc nm)
  | Var _ | Number _ => CInt 1
  | Program fs =>
      safe_sum (map (fun f => get_cost fc (match f with
                                           | Function nm _ _ => nm
                                           | _ => ""
                                           end) f) fs)
  | _ => CInt 1
  end.

(** [d[k] = v] on a Python dict kept as an association list in insertion
    order: an existing key keeps its position. *)
Fixpoint set_item {V : Type} (k : string) (v : V) (d : list (string * V))
  : list (string * V) :=
  match d with
  | [] => [(k, v)]
  | (k', v') :: d' =>
      if String.eqb k' k then (k, v) :: d' else (k', v') :: set_item k v d'
  end.

(** [d.get(k)] *)
Fixpoint get_item {V : Type} (k : string) (d : list (string * V)) : option V :=
  match d with
  | [] => None
  | (k', v) :: d' => if String.eqb k' k then Some v else get_item k d'
  end.

(** The analyzer's instance state.  [symbol_tables] holds only the keys
    (every table is the empty dict); [recursive_analyzer] is a fresh
    classifier (its cache is not modelled). *)
Record math_state : Type := mk_math_state {
  function_costs : list (string * cexpr);
  symbol_tables : list (string * unit);
  function_metadata : list (string * Classifier.rec_info);
  last_raw_results : list (string * cexpr)
}.

(** The argument of [analyze]: a node, or another Python value. *)
Inductive pyvalue : Type :=
| PyNode (n : node)
| PyNone
| PyInt (z : Z)
| PyStr (s : string).

(** The items of [Program.functions], which the data model types as
    [Function] nodes; [None] when an item is not one. *)
Fixpoint all_functions (fs : list node)
  : option (list (string * list string * list node)) :=
  match fs with
  | [] => Some []
  | Function nm ps b :: fs' =>
      match all_functions fs' with
      | Some l => Some ((nm, ps, b) :: l)
      | None => None
      end
  | _ :: _ => None
  end.

Definition fname_of (d : string * list string * list node) : string :=
  let '(nm, _, _) := d in nm.

Definition fnode_of (d : string * list string * list node) : node :=
  let '(nm, ps, b) := d in Function nm ps b.

(** First loop of [analyze]: register every function. *)
Definition register_function (st : math_state) (d : string * list string * list node)
  : math_state :=
  let '(nm, ps, b) := d in
  mk_math_state
    (set_item nm (CFun nm) (function_costs st))
    (set_item nm tt (symbol_tables st))
    (set_item nm (Classifier.analyze_recursive_algorithm nm ps b) (function_metadata st))
    (last_raw_results st).

Section Analyze.

(** The sympy stages: [_normalize_recursive_terms] and [solve] (which
    traps every exception and then returns a message), both reading
    [self.function_metadata]; the value [solve] returns is kept as its
    [str]. *)
Variable normalize_recursive_terms :
  list (string * Classifier.rec_info) -> cexpr -> string -> cexpr.
Variable solve : list (string * Classifier.rec_info) -> cexpr -> string -> string.

(** Second loop of [analyze]: [raw_results[func.name] = normalized]. *)
Definition raw_result_step (st : math_state) (raw : list (string * cexpr))
    (d : string * list string * list node) : list (string * cexpr) :=
  let nm := fname_of d in
  set_item nm
    (normalize_recursive_terms (function_metadata st)
       (get_cost (function_costs st) nm (fnode_of d)) nm) raw.

(** [analyze(program_node)] on the analyzer state [st]: the raised
    exception or the returned dict, with the state afterwards.  A
    [Program] item that is not a [Function] lies outside the AST data
    model; the model stops there with an [AttributeError]. *)
Definition analyze (v : pyvalue) (st : math_state)
  : (exn * math_state) + (list (string * string) * math_state) :=
  match v with
  | PyNode (Program fs) =>
      match all_functions fs with
      | None => inl (mk_exn "AttributeError" "object has no attribute 'name'", st)
      | Some defs =>
          let st1 := fold_left register_function defs st in
          let raw := fold_left (raw_result_step st1) defs [] in
          let st2 := mk_math_state (function_costs st1) (symbol_tables st1)
                       (function_metadata st1) raw in
          let final := map (fun '(nm, r) => (nm, solve (function_metadata st1) r nm)) raw in
          inr (final, st2)
      end
  | _ => inl (mk_exn "TypeError" "Se esperaba un nodo Program.", st)
  end.

End Analyze.

End MathEngine.

(* ------------------------------------------------------------------ *)
(** ** Best / worst / average catalog ([CaseAnalyzer]) *)

Module Cases.

(** [CaseAnalysis], restricted to [case_type] and [complexity]; the
    narrative fields ([scenario], [ejemplo], [explanation]) are not
    modelled. *)
Record case_analysis : Type := mk_case {
  case_type : string;
  ca_complexity : string
}.

(** [x or default] on strings. *)
Definition or_default (x d : string) : string :=
  if String.eqb x "" then d else x.

(** [s.replace(" ", "")] *)
Fixpoint remove_spaces (s : string) : string :=
  match s with
  | EmptyString => EmptyString
  | String c s' =>
      if Ascii.eqb c " " then remove_spaces s' else String c (remove_spaces s')
  end.

(** [ast.functions[0].name] when [ast] is a [Program] with functions. *)
Definition first_function_name (ast : node) : option (option string) :=
  match ast with
  | Program (f :: _) => Some (Asymptotic.name_attr f)
  | _ => None
  end.

(** [_analyze_best_case(ast, algorithm_type, complexity)] *)
Definition analyze_best_case (ast : node) (ty comp : string) : case_analysis :=
  let c := mk_case "best" in
  if String.eqb ty "divide_conquer" then c "Θ(n log n)"
  else if String.eqb ty "nested_loops" then c (or_default comp "Θ(n²)")
  else if String.eqb ty "fibonacci" then c (or_default comp "Θ(2ⁿ)")
  else if String.eqb ty "binary_search" then c "Θ(1)"
  else if String.eqb ty "prime_test" then c "Θ(1)"
  else if String.eqb ty "recursive" then c (or_default comp "Θ(n)")
  else if String.eqb ty "linear_search" then c "Θ(1)"
  else if String.eqb ty "linear_processing" then c (or_default comp "Θ(n)")
  else if String.eqb ty "constant" then c "Θ(1)"
  else c (or_default comp "Θ(1)").

(** [_analyze_worst_case(ast, algorithm_type, complexity)].  The scan of
    [dir(f)] for [Var]-valued attributes named like a pivot never fires: a
    [Function]'s public attributes are [name], [params] and [body]. *)
Definition analyze_worst_case (ast : node) (ty comp : string) : case_analysis :=
  let c := mk_case "worst" in
  let func_name :=
    match first_function_name ast with
    | Some (Some nm) => nm
    | _ => "algoritmo"
    end in
  if String.eqb ty "nested_loops" then c (or_default comp "Θ(n²)")
  else if String.eqb ty "divide_conquer" then
    let func_lower := Py.lower func_name in
    if Py.contains "quick" func_lower || Py.contains "qsort" func_lower
    then c "Θ(n²)"
    else c (or_default comp "Θ(n log n)")
  else if String.eqb ty "recursive" then c (or_default comp "Θ(n)")
  else if String.eqb ty "fibonacci" then c "Θ(2ⁿ) ≈ Θ(2ⁿ)"
  else if String.eqb ty "binary_search" then c "Θ(log n)"
  else if String.eqb ty "prime_test" then c "Θ(n)"
  else if String.eqb ty "linear_search" then c "Θ(n)"
  else if String.eqb ty "linear_processing" then c (or_default comp "Θ(n)")
  else if String.eqb ty "constant" then c "Θ(1)"
  else c (or_default comp "Θ(n)").

(** [_analyze_average_case(ast, algorithm_type, complexity)] *)
Definition analyze_average_case (ast : node) (ty comp : string) : case_analysis :=
  let c := mk_case "average" in
  if String.eqb ty "fibonacci" then c "Θ(2ⁿ) ≈ Θ(2ⁿ)"
  else if String.eqb ty "binary_search" then c "Θ(log n)"
  else if String.eqb ty "prime_test" then c "Θ(n)"
  else if String.eqb ty "divide_conquer" then c "Θ(n log n)"
  else if String.eqb ty "recursive" then c (or_default comp "Θ(n)")
  else if String.eqb ty "nested_loops" then c (or_default comp "Θ(n²)")
  else if String.eqb ty "linear_search" then c "Θ(n/2) = Θ(n)"
  else if String.eqb ty "linear_processing" then c (or_default comp "Θ(n)")
  else if String.eqb ty "constant" then c "Θ(1)"
  else c (or_default comp "Θ(n)").

Section CaseAnalyzer.

(** The AST detectors of the catalog, each of which may raise:
    [_detect_algorithm_type], [_has_binary_search_pattern] and
    [_count_active_recursive_calls]. *)
Variable detect_algorithm_type : node -> exn + string.
Variable has_binary_search_pattern : node -> exn + bool.
Variable count_active_recursive_calls : node -> exn + nat.

(** [_validate_and_refine_type(detected_type, recurrence, complexity, ast)] *)
Definition validate_and_refine_type (detected recurrence complexity : string)
    (ast : node) : exn + string :=
  let recurrence := remove_spaces recurrence in
  let complexity_low := Py.lower complexity in
  if Py.contains "t(n-1)" recurrence && Py.contains "t(n-2)" recurrence then
    inr "fibonacci"
  else if (Py.contains "t(n/2)" recurrence || Py.contains "t(n/2)+o(1)" recurrence)
          && Py.contains "log" complexity_low
          && negb (Py.contains "nlog" complexity_low)
          && negb (Py.contains "2^" complexity_low) then inr "binary_search"
  else
    match has_binary_search_pattern ast with
    | inl e => inl e
    | inr true => inr "binary_search"
    | inr false =>
        if Py.contains "nlog" complexity_low || Py.contains "n*log" complexity_low
        then inr "divide_conquer"
        else if Py.contains "2^" complexity_low || Py.contains "exp(" complexity_low
                || Py.contains "2" complexity_low then
          match count_active_recursive_calls ast with
          | inl e => inl e
          | inr k => if (2 <=? k)%nat then inr "fibonacci" else inr "recursive"
          end
        else inr detected
    end.

(** The type [analyze_all_cases] settles on before building the cases;
    [None] arguments of the source are the empty string here. *)
Definition resolved_type (ast : node) (algorithm_type recurrence_eq complexity : string)
  : string :=
  let detected_type :=
    match detect_algorithm_type ast with inr t => t | inl _ => "unknown" end in
  let algorithm_type :=
    if negb (String.eqb detected_type "unknown") then detected_type
    else or_default algorithm_type "unknown" in
  if negb (String.eqb recurrence_eq "") || negb (String.eqb complexity "") then
    match validate_and_refine_type algorithm_type recurrence_eq complexity ast with
    | inr t => t
    | inl _ => algorithm_type
    end
  else algorithm_type.

(** [analyze_all_cases(ast, algorithm_type, recurrence_eq, complexity)]:
    the triple (best, worst, average).  With neither a recurrence nor a
    complexity it calls [_build_math_based_cases], which the class does not
    define. *)
Definition analyze_all_cases (ast : node) (algorithm_type recurrence_eq complexity : string)
  : exn + (case_analysis * case_analysis * case_analysis) :=
  match first_function_name ast with
  | Some None => inl (mk_exn "AttributeError" "object has no attribute 'name'")
  | _ =>
    let ty := resolved_type ast algorithm_type recurrence_eq complexity in
    if String.eqb complexity "" && String.eqb recurrence_eq "" then
      inl (mk_exn "AttributeError"
             "'CaseAnalyzer' object has no attribute '_build_math_based_cases'")
    else
      inr (analyze_best_case ast ty complexity,
           analyze_worst_case ast ty complexity,
           analyze_average_case ast ty complexity)
  end.

End CaseAnalyzer.

End Cases.

(* ------------------------------------------------------------------ *)
(** ** The pipeline ([AnalysisOrchestrator.process_code]) *)

Module Orchestrator.
Import Classifier Asymptotic MathEngine.

(** [self.heur_engine.estimate_level_costs(eq)]: [AsymptoticAnalyzer]
    defines no method of that name, so the attribute lookup raises. *)
Definition estimate_level_costs (eq : string) : exn + list string :=
  inl (mk_exn "AttributeError"
         "'AsymptoticAnalyzer' object has no attribute 'estimate_level_costs'").

Section Pipeline.

(** The stages outside the embedded engines: [parse_code] (its grammar
    file is not part of the sources), the sympy stages of the math engine,
    [str] of a sympy expression, and the tree builder
    ([analyze_equation] then [get_structure]) with its structure type. *)
Variable tree : Type.
Variable empty_tree : tree.
Variable parse_code : string -> exn + node.
Variable normalize_recursive_terms :
  list (string * rec_info) -> cexpr -> string -> cexpr.
Variable solve : list (string * rec_info) -> cexpr -> string -> string.
Variable str_cexpr : cexpr -> string.
Variable build_tree : string -> exn + tree.
(** The math engine's state when the call starts, and the measured time
    in hundredths of a millisecond. *)
Variable math_state0 : math_state.
Variable elapsed : nat.

(** [AnalysisResult] without the LLM fields and [heur_explanation]. *)
Record analysis_result : Type := mk_result {
  filename : string;
  name : string;
  code : string;
  ast_node : option node;
  math_expression : string;
  math_complexity : string;
  heur_equation : string;
  heur_base_cases : string;
  heur_complexity : string;
  heur_notation : string;
  heur_method : string;
  is_recursive : bool;
  recursion_pattern : string;
  tree_structure_data : tree;
  error : option string;
  level_costs : list string;
  elapsed_ms : option nat
}.

(** The [AnalysisResult] built by the [except Exception as e] handler. *)
Definition error_result (name_hint code_ : string) (e : exn) : analysis_result :=
  mk_result name_hint "Error" code_ None "N/A" "N/A" "N/A" "N/A" "N/A" "O(?)" "N/A"
    false "iterative" empty_tree (Some (exn_msg e)) [] None.

(** The body of the [try] block of [process_code], with [use_llm] left at
    its default [False]; [inl e] when it raises [e].  The classifier is a
    fresh instance (its cache is not modelled).  A first [Program] item that
    is not a [Function] lies outside the AST data model; the model stops
    there with an [AttributeError]. *)
Definition process_code_body (code_ name_hint : string) : exn + analysis_result :=
  match parse_code code_ with
  | inl e => inl e
  | inr ast =>
    let functions := match ast with Program fs => fs | _ => [] end in
    match functions with
    | [] => inl (mk_exn "ValueError" "No funciones")
    | target_func :: _ =>
      match target_func with
      | Function func_name ps b =>
        let rec_info := analyze_recursive_algorithm func_name ps b in
        match MathEngine.analyze normalize_recursive_terms solve (PyNode ast) math_state0 with
        | inl (e, _) => inl e
        | inr (solved_results, st) =>
          let math_comp :=
            match get_item func_name solved_results with
            | Some c => c
            | None => "No determinado"
            end in
          let math_expr :=
            match get_item func_name (last_raw_results st) with
            | Some r => str_cexpr r
            | None => "N/A"
            end in
          match analyze_function_node target_func (Some rec_info) with
          | inl e => inl e
          | inr (heur_rec, heur_bound) =>
            let level_costs_ :=
              if has_recursion rec_info && negb (String.eqb (equation heur_rec) "") then
                match estimate_level_costs (equation heur_rec) with
                | inr l => l
                | inl _ => []
                end
              else [] in
            let base_cases_str :=
              match base_cases heur_rec with
              | [] => "N/A"
              | bc => Py.join Py.newline
                        (map (fun '(k, v) => "   * " ++ k ++ " = " ++ v) bc)
              end in
            let tree_data :=
              if has_recursion rec_info then
                let eq_source :=
                  if Py.contains "T(n)" math_expr then math_expr
                  else equation heur_rec in
                build_tree eq_source
              else inr empty_tree in
            match tree_data with
            | inl e => inl e
            | inr t =>
              inr (mk_result name_hint func_name code_ (Some target_func)
                     math_expr math_comp (equation heur_rec) base_cases_str
                     (notation heur_bound ++ "(" ++ complexity heur_bound ++ ")")
                     (notation heur_bound) (method_used heur_rec)
                     (has_recursion rec_info) (ri_pattern_type rec_info) t
                     None level_costs_ (Some elapsed))
            end
          end
        end
      | _ => inl (mk_exn "AttributeError" "object has no attribute 'body'")
      end
    end
  end.

(** [process_code(code, name_hint)] *)
Definition process_code (code_ name_hint : string) : analysis_result :=
  match process_code_body code_ name_hint with
  | inr r => r
  | inl e => error_result name_hint code_ e
  end.

End Pipeline.

End Orchestrator.

(* ------------------------------------------------------------------ *)
(** ** The AST detectors of [CaseAnalyzer] *)

Module CaseDetect.
Import Asymptotic.

(** [a or b] where either side may raise: evaluated left to right, the
    right side only when the left one returned [False]. *)
Definition or_exn (a b : exn + bool) : exn + bool :=
  match a with
  | inl e => inl e
  | inr true => inr true
  | inr false => b
  end.

(** A [for] loop that returns [True] on the first item whose test does. *)
Fixpoint any_exn {A : Type} (f : A -> exn + bool) (l : list A) : exn + bool :=
  match l with
  | [] => inr false
  | x :: l' => or_exn (f x) (any_exn f l')
  end.

(** The walk shared by the detectors: [here] on the node itself, then
    every public attribute in the order of [dir(node)] (alphabetical),
    descending into values that have a [__dict__] (nodes) and into the
    node items of lists.  Strings, ints, bools and [None] are skipped, so
    a plain [Assignment] target ([Name]) is not visited.  [comb] combines
    the results left to right, ending in [z]. *)
Fixpoint dir_fold {A : Type} (here : node -> A) (comb : A -> A -> A) (z : A)
    (n : node) {struct n} : A :=
  comb (here n)
    (fold_right comb z
       match n with
       | Program fs => map (dir_fold here comb z) fs
       | Function _ _ b => map (dir_fold here comb z) b
       | Assignment t e =>
           dir_fold here comb z e
           :: match t with Name _ => [] | _ => [dir_fold here comb z t] end
       | For _ s e b =>
           (map (dir_fold here comb z) b
            ++ [dir_fold here comb z e; dir_fold here comb z s])%list
       | While c b => (map (dir_fold here comb z) b ++ [dir_fold here comb z c])%list
       | If c t el =>
           dir_fold here comb z c
           :: (match el with
               | Some l => map (dir_fold here comb z) l
               | None => []
               end ++ map (dir_fold here comb z) t)%list
       | Repeat b c => (map (dir_fold here comb z) b ++ [dir_fold here comb z c])%list
       | Return e => [dir_fold here comb z e]
       | Call _ args => map (dir_fold here comb z) args
       | BinOp l _ r | Condition l _ r | BoolOp l _ r =>
           [dir_fold here comb z l; dir_fold here comb z r]
       | ArrayAccess _ i => [dir_fold here comb z i]
       | MatrixAccess _ r c => [dir_fold here comb z c; dir_fold here comb z r]
       | ArrayDeclaration _ s => [dir_fold here comb z s]
       | MatrixDeclaration _ r c => [dir_fold here comb z c; dir_fold here comb z r]
       | UnaryOp _ o => [dir_fold here comb z o]
       | Var _ | Number _ | Boolean _ | Name _ => []
       end).

(** [isinstance(node, Call) and node.name == func_name] *)
Definition is_call_to (func_name : string) (n : node) : bool :=
  match n with
  | Call nm _ => String.eqb nm func_name
  | _ => false
  end.

(** [_check_recursive_calls(node, func_name)] *)
Definition check_recursive_calls (n : node) (func_name : string) : bool :=
  dir_fold (is_call_to func_name) orb false n.

(** [isinstance(node, (For, While))] *)
Definition is_loop (n : node) : bool :=
  match n with
  | For _ _ _ _ | While _ _ => true
  | _ => false
  end.

(** [_has_loops(node)] *)
Definition has_loops (n : node) : bool := dir_fold is_loop orb false n.

(** [_count_recursive_calls(node, func_name)] *)
Definition count_recursive_calls (n : node) (func_name : string) : nat :=
  dir_fold (fun m => if is_call_to func_name m then 1 else 0) Nat.add 0 n.

(** [func.name] of a [Program] item.  A [Program] item that is not a
    [Function] lies outside the AST data model; the model stops there with
    an [AttributeError]. *)
Definition func_name_of (f : node) : exn + string :=
  match f with
  | Function nm _ _ => inr nm
  | _ => inl attribute_error
  end.

(** [_has_recursion(node)] *)
Definition has_recursion (n : node) : exn + bool :=
  match n with
  | Function nm _ _ => inr (check_recursive_calls n nm)
  | Program fs =>
      any_exn (fun f =>
        match func_name_of f with
        | inl e => inl e
        | inr nm => inr (check_recursive_calls f nm)
        end) fs
  | _ => inr false
  end.

(** [_has_return_in_if(if_node)]: its first statement reads
    [if_node.then_block], and an [If] node has [then_body] and
    [else_body], so the lookup raises. *)
Definition has_return_in_if (if_node : node) : exn + bool :=
  inl (mk_exn "AttributeError" "'If' object has no attribute 'then_block'").

(** The scan of a loop body in [_has_early_return_in_loop]. *)
Fixpoint loop_body_scan (b : list node) : exn + bool :=
  match b with
  | [] => inr false
  | stmt :: b' =>
      match stmt with
      | Return _ => inr true
      | If _ _ _ => or_exn (has_return_in_if stmt) (loop_body_scan b')
      | _ => loop_body_scan b'
      end
  end.

Definition early_return_here (n : node) : exn + bool :=
  match n with
  | For _ _ _ b | While _ b => loop_body_scan b
  | _ => inr false
  end.

(** [_has_early_return_in_loop(node)] *)
Definition has_early_return_in_loop (n : node) : exn + bool :=
  dir_fold early_return_here or_exn (inr false) n.

(** [_count_nested_loops(node, depth)]: a [For] or [While] adds one level
    and only its [body] is searched; any other node passes its depth to
    every attribute. *)
Fixpoint count_nested_loops (n : node) (depth : nat) {struct n} : nat :=
  match n with
  | For _ _ _ b | While _ b =>
      fold_left Nat.max (map (fun s => count_nested_loops s (S depth)) b) (S depth)
  | Program fs => fold_left Nat.max (map (fun x => count_nested_loops x depth) fs) depth
  | Function _ _ b => fold_left Nat.max (map (fun x => count_nested_loops x depth) b) depth
  | Assignment t e =>
      fold_left Nat.max
        (count_nested_loops e depth
         :: match t with Name _ => [] | _ => [count_nested_loops t depth] end) depth
  | If c t el =>
      fold_left Nat.max
        (count_nested_loops c depth
         :: (match el with
             | Some l => map (fun x => count_nested_loops x depth) l
             | None => []
             end ++ map (fun x => count_nested_loops x depth) t)%list) depth
  | Repeat b c =>
      fold_left Nat.max
        (map (fun x => count_nested_loops x depth) b ++ [count_nested_loops c depth])%list
        depth
  | Return e => fold_left Nat.max [count_nested_loops e depth] depth
  | Call _ args => fold_left Nat.max (map (fun x => count_nested_loops x depth) args) depth
  | BinOp l _ r | Condition l _ r | BoolOp l _ r =>
      fold_left Nat.max [count_nested_loops l depth; count_nested_loops r depth] depth
  | ArrayAccess _ i => fold_left Nat.max [count_nested_loops i depth] depth
  | MatrixAccess _ r c =>
      fold_left Nat.max [count_nested_loops c depth; count_nested_loops r depth] depth
  | ArrayDeclaration _ s => fold_left Nat.max [count_nested_loops s depth] depth
  | MatrixDeclaration _ r c =>
      fold_left Nat.max [count_nested_loops c depth; count_nested_loops r depth] depth
  | UnaryOp _ o => fold_left Nat.max [count_nested_loops o depth] depth
  | Var _ | Number _ | Boolean _ | Name _ => depth
  end.

(** [_has_divide_conquer_pattern(ast)] *)
Definition has_divide_conquer_pattern (ast : node) : exn + bool :=
  let funcs :=
    match ast with
    | Program fs => fs
    | Function _ _ _ => [ast]
    | _ => []
    end in
  any_exn (fun f =>
    match func_name_of f with
    | inl e => inl e
    | inr nm => inr (2 <=? count_recursive_calls f nm)%nat
    end) funcs.

(** The test of [_check_binary_division] on the node itself:
    [isinstance(node, Assignment) and hasattr(node, 'value') and ...];
    the attributes of an [Assignment] are [name] and [expr], so
    [hasattr(node, 'value')] is false. *)
Definition binary_division_here (n : node) : bool :=
  match n with
  | Assignment _ _ => false
  | _ => false
  end.

(** [_check_binary_division(node)] *)
Definition check_binary_division (n : node) : bool :=
  dir_fold binary_division_here orb false n.

(** [_has_binary_search_pattern(ast)] *)
Definition has_binary_search_pattern (ast : node) : bool :=
  match ast with
  | Program fs => existsb check_binary_division fs
  | _ => false
  end.

(** The [decrements] one argument of a [Call] contributes:
    [arg.right.value] of a [BinOp] [-] whose right side is a [Number]. *)
Definition decrement_of (arg : node) : list Z :=
  match arg with
  | BinOp _ o (Number v) => if String.eqb o "-" then [v] else []
  | _ => []
  end.

(** [1 in decrements and 2 in decrements] for the node itself. *)
Definition fib_decrements_here (n : node) : bool :=
  match n with
  | Call _ args =>
      let d := flat_map decrement_of args in
      existsb (Z.eqb 1) d && existsb (Z.eqb 2) d
  | _ => false
  end.

(** [_has_fibonacci_decrement_pattern(node)]: the source searches the
    attributes before testing the node's own [decrements]; the boolean
    result is the disjunction either way. *)
Definition has_fibonacci_decrement_pattern (n : node) : bool :=
  dir_fold fib_decrements_here orb false n.

(** [_is_fibonacci_pattern(ast)] *)
Definition is_fibonacci_pattern (ast : node) : exn + bool :=
  match ast with
  | Program fs =>
      any_exn (fun f =>
        match func_name_of f with
        | inl e => inl e
        | inr nm =>
            if Py.contains "fib" (Py.lower nm)
            then inr (count_recursive_calls f nm =? 2)%nat
            else inr ((count_recursive_calls f nm =? 2)%nat
                      && has_fibonacci_decrement_pattern f)
        end) fs
  | _ => inr false
  end.

(** [_detect_algorithm_type(ast)] *)
Definition detect_algorithm_type (ast : node) : exn + string :=
  match has_recursion ast with
  | inl e => inl e
  | inr has_rec =>
    let has_lp := has_loops ast in
    match has_divide_conquer_pattern ast with
    | inl e => inl e
    | inr has_dc =>
      let has_bs := has_binary_search_pattern ast in
      match is_fibonacci_pattern ast with
      | inl e => inl e
      | inr is_fib =>
        if has_bs then inr "binary_search"
        else if is_fib then inr "fibonacci"
        else if has_dc then inr "divide_conquer"
        else if has_rec then inr "recursive"
        else if has_lp then
          if (2 <=? count_nested_loops ast 0)%nat then inr "nested_loops"
          else match has_early_return_in_loop ast with
               | inl e => inl e
               | inr true => inr "linear_search"
               | inr false => inr "linear_processing"
               end
        else inr "constant"
      end
    end
  end.

(** [_count_active_recursive_calls(ast)] *)
Definition count_active_recursive_calls (ast : node) : exn + nat :=
  match ast with
  | Program (f :: _) =>
      match func_name_of f with
      | inl e => inl e
      | inr nm => inr (count_recursive_calls f nm)
      end
  | _ => inr 0
  end.

(** [CaseAnalyzer().analyze_all_cases(ast, algorithm_type, recurrence_eq,
    complexity)] with the detectors above. *)
Definition analyze_all_cases (ast : node) (algorithm_type recurrence_eq complexity : string)
  : exn + (Cases.case_analysis * Cases.case_analysis * Cases.case_analysis) :=
  Cases.analyze_all_cases detect_algorithm_type
    (fun a => inr (has_binary_search_pattern a)) count_active_recursive_calls
    ast algorithm_type recurrence_eq complexity.

End CaseDetect.

(* ------------------------------------------------------------------ *)
(** ** The prime-test detectors of [CaseAnalyzer] *)

Module PrimeDetect.
Import Asymptotic CaseDetect.

(** The test of [_condition_has_modulo] on the node itself. *)
Definition modulo_here (n : node) : bool :=
  match n with
  | BinOp _ o _ => String.eqb o "%"
  | _ => false
  end.

(** [_condition_has_modulo(cond)] *)
Definition condition_has_modulo (cond : node) : bool :=
  dir_fold modulo_here orb false cond.

(** The scan of a loop body in [_has_modulo_guard_with_return]:
    [self._condition_has_modulo(stmt.condition) and
    self._has_return_in_if(stmt)] for each [If] statement. *)
Definition modulo_guard_here (n : node) : exn + bool :=
  match n with
  | For _ _ _ b | While _ b =>
      any_exn (fun stmt =>
        match stmt with
        | If c _ _ => if condition_has_modulo c then has_return_in_if stmt else inr false
        | _ => inr false
        end) b
  | _ => inr false
  end.

(** [_has_modulo_guard_with_return(node)] *)
Definition has_modulo_guard_with_return (n : node) : exn + bool :=
  dir_fold modulo_guard_here or_exn (inr false) n.

(** [_is_prime_like_pattern(ast)] *)
Definition is_prime_like_pattern (ast : node) : exn + bool :=
  match ast with
  | Program (f :: _) =>
      match func_name_of f with
      | inl e => inl e
      | inr nm =>
          let name := Py.lower nm in
          if Py.contains "primo" name || Py.contains "prime" name then inr true
          else has_modulo_guard_with_return ast
      end
  | _ => has_modulo_guard_with_return ast
  end.

(** [_is_prime_like_pattern_safe(ast)]: any exception reads as [False]. *)
Definition is_prime_like_pattern_safe (ast : node) : bool :=
  match is_prime_like_pattern ast with
  | inr b => b
  | inl _ => false
  end.

End PrimeDetect.

(* ------------------------------------------------------------------ *)
(** ** [AsymptoticAnalyzer.analyze] *)

Module AsymptoticApi.
Import Classifier Asymptotic.

(** [analyze(node, recursive_info)]: [_construct_recurrence] then
    [_solve_recurrence], without the correction of
    [analyze_function_node]. *)
Definition analyze (n : node) (info : option rec_info)
  : exn + (recurrence_equation * asymptotic_bound) :=
  match construct_recurrence n info with
  | inl e => inl e
  | inr recurrence =>
    match solve_recurrence recurrence with
    | inl e => inl e
    | inr bound => inr (recurrence, bound)
    end
  end.

End AsymptoticApi.

(* ------------------------------------------------------------------ *)
(** ** [RecurrenceSolver] and the classifier's cache *)

Module RecSolver.
Import Classifier.

(** [RecurrenceSolver.solve_recurrence(formula, n)], with [math.log2] on
    the reals and [int] of a positive float as its integer part. *)
Definition solve_recurrence (formula : string) (n : Z) : Z :=
  if (n <=? 1)%Z then 1%Z
  else if Py.contains "T(n-1)" formula && negb (Py.contains "2*T(n-1)" formula) then n
  else if Py.contains "2*T(n-1)" formula then (2 ^ n)%Z
  else if Py.contains "T(n/2)" formula then (n * Int_part (ln (IZR n) / ln 2))%Z
  else n.

(** [known_solutions] of [get_closed_form_solution] *)
Definition known_solutions : list (string * string) :=
  [("T(n) = T(n-1) + O(1)", "O(n)");
   ("T(n) = 2T(n-1) + O(1)", "O(2^n)");
   ("T(n) = T(n-1) + T(n-2) + O(1)", "O(2^n)");
   ("T(n) = 2T(n/2) + O(n)", "O(n log n)");
   ("T(n) = 2T(n/2) + O(1)", "O(n)");
   ("T(n) = T(n/2) + O(1)", "O(log n)")].

(** [get_closed_form_solution(pattern)] for a pattern with the given
    [recurrence_formula] and [solution]. *)
Definition get_closed_form_solution (recurrence_formula solution : string) : string :=
  match MathEngine.get_item recurrence_formula known_solutions with
  | Some s => s
  | None =>
    let formula := Py.lower recurrence_formula in
    if Py.contains "t(n-1)" formula && negb (Py.contains "2t(n-1)" formula) then "O(n)"
    else if Py.contains "2t(n-1)" formula || Py.contains "t(n-1) + t(n-2)" formula
    then "O(2^n)"
    else if Py.contains "t(n/2)" formula && Py.contains "+ o(n)" formula then "O(n log n)"
    else if Py.contains "t(n/2)" formula && Py.contains "+ o(1)" formula then "O(n)"
    else solution
  end.

(** The [estimated_complexity] entry of the analysis: ['O(1)'], replaced
    by [get_closed_form_solution] of a [RecurrencePattern] whose
    [solution] is [''] when a relation was derived. *)
Definition estimated_complexity (a : rec_info) : string :=
  match recurrence_relation a with
  | Some r => if String.eqb r "" then "O(1)" else get_closed_form_solution r ""
  | None => "O(1)"
  end.

(** [_generate_function_key(function_node)] *)
Definition generate_function_key (name : string) (body : list node) : string :=
  Py.join "_" [name; "body_" ++ Py.str_nat (length body)].

(** [analyze_recursive_algorithm(function_node)] on an analyzer whose
    [analysis_cache] is [cache]: the analysis, and the cache afterwards. *)
Definition analyze_cached (cache : list (string * rec_info)) (name : string)
    (params : list string) (body : list node) : rec_info * list (string * rec_info) :=
  let func_key := generate_function_key name body in
  match MathEngine.get_item func_key cache with
  | Some a => (a, cache)
  | None =>
      let a := analyze_recursive_algorithm name params body in
      (a, MathEngine.set_item func_key a cache)
  end.

(** The dict returned by [get_analysis_statistics]. *)
Record analysis_statistics : Type := mk_statistics {
  total_functions_analyzed : nat;
  recursive_functions_found : nat;
  pattern_distribution : list (string * nat);
  cache_size : nat
}.

(** [get_analysis_statistics()] on [analysis_cache = cache]. *)
Definition get_analysis_statistics (cache : list (string * rec_info)) : analysis_statistics :=
  let total_analyzed := length cache in
  let recursive_functions := length (filter (fun kv => has_recursion (snd kv)) cache) in
  let pattern_types :=
    fold_left (fun d kv =>
      let p := ri_pattern_type (snd kv) in
      MathEngine.set_item p
        (match MathEngine.get_item p d with Some c => c | None => 0 end + 1)%nat d)
      cache [] in
  mk_statistics total_analyzed recursive_functions pattern_types total_analyzed.

(** The analyzer's cache after [analyze_recursive_algorithm] on each
    function of [fs] in turn, from an empty cache. *)
Definition cache_after (fs : list (string * list string * list node))
  : list (string * rec_info) :=
  fold_left (fun c d => let '(nm, ps, b) := d in snd (analyze_cached c nm ps b)) fs [].

End RecSolver.

(* ------------------------------------------------------------------ *)
(** ** [MathematicalAnalyzer._fallback_complexity] *)

Module MathFallback.
Import Classifier.

(** [_fallback_complexity(func_name)] on [self.function_metadata =
    metadata]; [None] and [""] are the falsy names.  A missing entry reads
    as [{}]: no relation and no pattern. *)
Definition fallback_complexity (metadata : list (string * rec_info))
    (func_name : option string) : option string :=
  match func_name with
  | None => None
  | Some fname =>
    if String.eqb fname "" then None else
    match MathEngine.get_item fname metadata with
    | None => None
    | Some md =>
      let relation :=
        Cases.remove_spaces
          (match recurrence_relation md with Some r => r | None => "" end) in
      let pattern := ri_pattern_type md in
      if String.eqb pattern "binary" then Some "O(2**n)"
      else if String.eqb pattern "binary_exclusive" then Some "O(log(n))"
      else if String.eqb pattern "linear" then Some "O(n)"
      else if String.eqb pattern "divide_conquer" then
        if Py.contains "2T(n/2)" relation then
          if Py.contains "O(n)" relation then Some "O(n*log(n))" else Some "O(n)"
        else if Py.contains "T(n/2)" relation then Some "O(log(n))"
        else None
      else None
    end
  end.

End MathFallback.

(* ------------------------------------------------------------------ *)
(** ** The Master Theorem step of [MathematicalAnalyzer.solve_recurrence] *)

Module MathMaster.

(** The value of [sympy.limit(f_n / n**critical_exponent, n, oo)]: a
    finite real (zero included), [oo] or [-oo]. *)
Inductive limit_value : Type :=
| LFinite (r : R)
| LInf
| LNegInf.

(** The limit at infinity of [k * n**c / n**L], for a cost [f_n] whose
    dominant term is [k * n**c]: [k * n**(c - L)] tends to [0] when
    [c < L], to [k] when [c = L], and to [oo] or [-oo] (by the sign of
    [k]) when [c > L]; a zero coefficient gives [0]. *)
Definition ratio_limit (k c L : R) : limit_value :=
  if Req_EM_T k 0 then LFinite 0
  else if Rlt_dec c L then LFinite 0
  else if Req_EM_T c L then LFinite k
  else if Rlt_dec 0 k then LInf else LNegInf.

(** The values [solve_recurrence] returns from its Master step:
    [sympy.O(n**L)], [sympy.O(n**L * log(n))], [sympy.O(f_n)], the
    result of the fallback chain for invalid parameters
    ([_fallback_from_equation], [_fallback_complexity], then the
    'Parámetros inválidos' message), and the 'No se pudo determinar el
    caso' message for the limit it reports. *)
Inductive master_result : Type :=
| BigO_pow (L : R)
| BigO_pow_log (L : R)
| BigO_cost (k : R) (c : nat)
| InvalidParams
| Undetermined (lim : limit_value).

(** Lines 122-156 of [solve_recurrence], reached for a divide-and-conquer
    [eq] (rsolve raised, [is_div_conquer] holds) with the parameters [a],
    [b] of [_extract_master_theorem_params] and [f_n = k * n**c]:
    [log_b_a = sympy.log(a, b)] is [ln a / ln b], and the three cases are
    told apart by the exact limit, with no tolerance. *)
Definition master_step (a b k : R) (c : nat) : master_result :=
  if Rlt_dec a 1 then InvalidParams
  else if Rle_dec b 1 then InvalidParams
  else
    let log_b_a := (ln a / ln b)%R in
    match ratio_limit k (INR c) log_b_a with
    | LFinite r =>
        if Req_EM_T r 0 then BigO_pow log_b_a
        else if Rlt_dec 0 r then BigO_pow_log log_b_a
        else Undetermined (LFinite r)
    | LInf => BigO_cost k c
    | LNegInf => Undetermined LNegInf
    end.

End MathMaster.

(* ------------------------------------------------------------------ *)
(** ** [AnalysisOrchestrator.process_file] *)

Module FileInput.
Import Orchestrator.

(** [os.path.basename(path)]: the part after the last [/]. *)
Fixpoint basename (p : string) : string :=
  match p with
  | EmptyString => EmptyString
  | String c r =>
      if Py.contains "/" r then basename r
      else if Ascii.eqb c "/" then r
      else p
  end.

Section ProcessFile.

(** The result structure type of the tree builder, and [process_code] of
    the orchestrator in the state it has at the call; [read_file] is
    [open(file_path, "r", encoding="utf-8").read()], which may raise. *)
Variable tree : Type.
Variable empty_tree : tree.
Variable process_code : string -> string -> analysis_result tree.
Variable read_file : string -> exn + string.

(** [AnalysisResult(filename=filename, name="Error IO", code="",
    ast_node=None, error=str(e))] with the other fields at their
    defaults. *)
Definition io_error_result (filename_ : string) (e : exn) : analysis_result tree :=
  mk_result tree filename_ "Error IO" "" None "N/A" "N/A" "N/A" "N/A" "N/A" "O(?)" "N/A"
    false "iterative" empty_tree (Some (exn_msg e)) [] None.

(** [process_file(file_path)] with [self._global_cache = cache]: the
    result and the cache afterwards. *)
Definition process_file (cache : list (string * analysis_result tree)) (file_path : string)
  : analysis_result tree * list (string * analysis_result tree) :=
  match MathEngine.get_item file_path cache with
  | Some r => (r, cache)
  | None =>
      let filename_ := basename file_path in
      match read_file file_path with
      | inl e => (io_error_result filename_ e, cache)
      | inr code_ =>
          let result := process_code code_ filename_ in
          (result, MathEngine.set_item file_path result cache)
      end
  end.

End ProcessFile.

(** Successive [process_file] calls on one orchestrator, whose
    [_global_cache] is shared between them: each call carries the path
    and the file system's [read_file] at its moment.  The results in
    order, and the cache at the end. *)
Fixpoint process_files (tree : Type) (empty_tree : tree)
    (process_code : string -> string -> analysis_result tree)
    (cache : list (string * analysis_result tree))
    (calls : list (string * (string -> exn + string)))
  : list (analysis_result tree) * list (string * analysis_result tree) :=
  match calls with
  | [] => ([], cache)
  | (path, read_file) :: rest =>
      let (r, cache') := process_file tree empty_tree process_code read_file cache path in
      let (rs, cache'') := process_files tree empty_tree process_code cache' rest in
      (r :: rs, cache'')
  end.

End FileInput.

(* ------------------------------------------------------------------ *)
(** ** Scenario programs, as [transformer.py] builds them *)

Module Scenarios.

(** [function factorial(n) begin if n <= 1 then begin return 1 end
     else begin return n * call factorial(n - 1) end end] *)
Definition factorial_body : list node :=
  [If (Condition (Var "n") "<=" (Number 1))
      [Return (Number 1)]
      (Some [Return (BinOp (Var "n") "*"
                       (Call "factorial" [BinOp (Var "n") "-" (Number 1)]))])].

Definition factorial : node := Function "factorial" ["n"] factorial_body.

(** The binary search of the scenario list. *)
Definition busqueda_binaria_body : list node :=
  [If (Condition (Var "izq") ">" (Var "der")) [Return (Number (-1))] None;
   Assignment (Name "mid") (BinOp (BinOp (Var "izq") "+" (Var "der")) "/" (Number 2));
   If (Condition (ArrayAccess "arr" (Var "mid")) "==" (Var "x")) [Return (Var "mid")] None;
   If (Condition (ArrayAccess "arr" (Var "mid")) ">" (Var "x"))
      [Return (Call "busqueda_binaria"
                 [Var "arr"; Var "izq"; BinOp (Var "mid") "-" (Number 1); Var "x"])]
      (Some [Return (Call "busqueda_binaria"
                       [Var "arr"; BinOp (Var "mid") "+" (Number 1); Var "der"; Var "x"])])].

Definition busqueda_binaria : node :=
  Function "busqueda_binaria" ["arr"; "izq"; "der"; "x"] busqueda_binaria_body.

(** [function fib(n) begin if n <= 1 then begin return n end
     return call fib(n-1) + call fib(n-2) end] *)
Definition fib_body : list node :=
  [If (Condition (Var "n") "<=" (Number 1)) [Return (Var "n")] None;
   Return (BinOp (Call "fib" [BinOp (Var "n") "-" (Number 1)]) "+"
                 (Call "fib" [BinOp (Var "n") "-" (Number 2)]))].

Definition fib : node := Function "fib" ["n"] fib_body.

Definition factorial_src : string :=
  "function factorial(n) begin if n <= 1 then begin return 1 end else begin return n * call factorial(n - 1) end end".

Definition busqueda_binaria_src : string :=
  "function busqueda_binaria(arr, izq, der, x) begin if izq > der then begin return -1 end mid = (izq + der) / 2 if arr[mid] == x then begin return mid end if arr[mid] > x then begin return call busqueda_binaria(arr, izq, mid - 1, x) end else begin return call busqueda_binaria(arr, mid + 1, der, x) end end".

Definition fib_src : string :=
  "function fib(n) begin if n <= 1 then begin return n end return call fib(n-1) + call fib(n-2) end".

(** The ASTs [parse_code] builds for the scenario sources; any other
    source is rejected here (the grammar file is not part of the sources). *)
Definition scenario_parse (src : string) : exn + node :=
  if String.eqb src factorial_src then inr (Program [factorial])
  else if String.eqb src busqueda_binaria_src then inr (Program [busqueda_binaria])
  else if String.eqb src fib_src then inr (Program [fib])
  else inl (mk_exn "UnexpectedInput" "source outside the scenario list").

Definition empty_math_state : MathEngine.math_state :=
  MathEngine.mk_math_state [] [] [] [].

(** [process_code] on a fresh orchestrator, with the scenario parses, the
    sympy stages left as identity / a fixed answer, and a tree builder that
    succeeds with the unit structure. *)
Definition scenario_process_code (src name_hint : string)
  : Orchestrator.analysis_result unit :=
  Orchestrator.process_code unit tt scenario_parse (fun _ e _ => e)
    (fun _ _ _ => "O(?)") (fun _ => "N/A") (fun _ => inr tt)
    empty_math_state 0 src name_hint.

(** A non-recursive function whose one loop has an empty body. *)
Definition empty_loop : node :=
  Function "vacio" ["n"] [For "i" (Number 1) (Var "n") []].

(** [repeat x = x + 1 until x >= n] *)
Definition repeat_loop : node :=
  Repeat [Assignment (Name "x") (BinOp (Var "x") "+" (Number 1))]
         (Condition (Var "x") ">=" (Var "n")).

(** [function c(n) begin x = 5; y = x + 10; return y end] *)
Definition constant_fn : node :=
  Function "c" ["n"]
    [Assignment (Name "x") (Number 5);
     Assignment (Name "y") (BinOp (Var "x") "+" (Number 10));
     Return (Var "y")].

End Scenarios.

(* ------------------------------------------------------------------ *)
(** ** Reference readings of the specification *)

Module SpecSide.

(** Maximum nesting depth of loops that have a non-empty body, through
    function bodies and [If] branches. *)
Fixpoint loop_nesting_depth (n : node) : nat :=
  match n with
  | For _ _ _ b | While _ b | Repeat b _ =>
      match b with
      | [] => 0
      | _ => S (list_max (map loop_nesting_depth b))
      end
  | Function _ _ b | Program b => list_max (map loop_nesting_depth b)
  | If _ t e =>
      Nat.max (list_max (map loop_nesting_depth t))
        (match e with
         | Some l => list_max (map loop_nesting_depth l)
         | None => 0
         end)
  | _ => 0
  end.

(** The rendering of [Θ(n^d)]: [1], [n], then [n^d]. *)
Definition depth_complexity (d : nat) : string :=
  match d with
  | 0 => "1"
  | 1 => "n"
  | _ => "n^" ++ Py.str_nat d
  end.

(** [f(n)] written as the engine writes a polynomial of degree [c]. *)
Definition degree_form (fn : string) (c : nat) : bool :=
  match c with
  | 0 => String.eqb fn "c" || String.eqb fn "1"
  | 1 => String.eqb fn "n"
  | _ => String.eqb fn ("n^" ++ Py.str_nat c)
  end.

(** The case-2 rendering [n^c log n]. *)
Definition master_case2 (c : nat) : string :=
  match c with
  | 0 => "log n"
  | 1 => "n log n"
  | _ => "n^" ++ Py.str_nat c ++ " log n"
  end.

(** The last of the function definitions named [nm]: the one whose value
    a dict keyed by function name keeps. *)
Definition last_def (nm : string) (defs : list (string * list string * list node))
  : option (string * list string * list node) :=
  find (fun d => String.eqb (MathEngine.fname_of d) nm) (rev defs).

End SpecSide.

(* ------------------------------------------------------------------ *)
(** ** More programs, as [transformer.py] builds them *)

Module MoreScenarios.

(** [function buscar(arr, n, x) begin for i = 1 to n do begin
     if arr[i] == x then begin return i end end return -1 end] *)
Definition buscar : node :=
  Function "buscar" ["arr"; "n"; "x"]
    [For "i" (Number 1) (Var "n")
       [If (Condition (ArrayAccess "arr" (Var "i")) "==" (Var "x"))
           [Return (Var "i")] None];
     Return (Number (-1))].

(** [function contar(n) begin x = 0 repeat x = x + 1 until x >= n
     return x end] *)
Definition contar : node :=
  Function "contar" ["n"]
    [Assignment (Name "x") (Number 0);
     Repeat [Assignment (Name "x") (BinOp (Var "x") "+" (Number 1))]
            (Condition (Var "x") ">=" (Var "n"));
     Return (Var "x")].

(** The Fibonacci recursion under another name:
    [return call sucesion(n-1) + call sucesion(n-2)]. *)
Definition sucesion_body : list node :=
  [If (Condition (Var "n") "<=" (Number 1)) [Return (Var "n")] None;
   Return (BinOp (Call "sucesion" [BinOp (Var "n") "-" (Number 1)]) "+"
                 (Call "sucesion" [BinOp (Var "n") "-" (Number 2)]))].

(** [return call doble(n-1) + call doble(n-1)] *)
Definition doble_body : list node :=
  [If (Condition (Var "n") "<=" (Number 1)) [Return (Number 1)] None;
   Return (BinOp (Call "doble" [BinOp (Var "n") "-" (Number 1)]) "+"
                 (Call "doble" [BinOp (Var "n") "-" (Number 1)]))].

(** [return call triple(n-1) + call triple(n-1) + call triple(n-1)] *)
Definition triple_body : list node :=
  [If (Condition (Var "n") "<=" (Number 1)) [Return (Number 1)] None;
   Return (BinOp (BinOp (Call "triple" [BinOp (Var "n") "-" (Number 1)]) "+"
                        (Call "triple" [BinOp (Var "n") "-" (Number 1)])) "+"
                 (Call "triple" [BinOp (Var "n") "-" (Number 1)]))].

(** The Fibonacci recursion named [search]. *)
Definition search_body : list node :=
  [If (Condition (Var "n") "<=" (Number 1)) [Return (Var "n")] None;
   Return (BinOp (Call "search" [BinOp (Var "n") "-" (Number 1)]) "+"
                 (Call "search" [BinOp (Var "n") "-" (Number 2)]))].

End MoreScenarios.

(* ------------------------------------------------------------------ *)
(** ** Reference readings for the detectors and the recurrence strings *)

Module ExtraSpec.

(** Every [Call] the detectors' walk visits has at most one argument. *)
Definition calls_at_most_unary (n : node) : bool :=
  negb (CaseDetect.dir_fold
          (fun m => match m with
                    | Call _ args => (2 <=? length args)%nat
                    | _ => false
                    end) orb false n).

(** Does the character [c] occur in [s]? *)
Fixpoint has_char (c : ascii) (s : string) : bool :=
  match s with
  | EmptyString => false
  | String c' s' => Ascii.eqb c' c || has_char c s'
  end.

End ExtraSpec.

(* ================================================================== *)
(** * Lemmas *)

Module Facts.
Import Classifier Asymptotic.

Lemma string_of_uint_digits : forall d,
  Py.all_digits (NilEmpty.string_of_uint d) = true.
Proof. induction d; simpl; auto. Qed.

Lemma str_nat_digits : forall n, Py.all_digits (Py.str_nat n) = true.
Proof.
  intro n. unfold Py.str_nat.
  destruct (Nat.to_uint n); simpl; auto using string_of_uint_digits.
Qed.

Lemma str_nat_nonempty : forall n, Py.str_nat n <> "".
Proof. intro n. unfold Py.str_nat. destruct (Nat.to_uint n); discriminate. Qed.

Lemma int_of_digits_str_nat : forall n, Py.int_of_digits (Py.str_nat n) = n.
Proof.
  intro n. unfold Py.int_of_digits, Py.str_nat.
  rewrite <- (DecimalNat.Unsigned.of_to n) at 2.
  destruct (Nat.to_uint n) eqn:E; try reflexivity;
    cbn [NilZero.string_of_uint]; rewrite NilEmpty.usu; reflexivity.
Qed.

Lemma str_nat_inj : forall a b, Py.str_nat a = Py.str_nat b -> a = b.
Proof.
  intros a b H. rewrite <- (int_of_digits_str_nat a), <- (int_of_digits_str_nat b).
  now rewrite H.
Qed.

Lemma digit_run_all : forall s, Py.all_digits s = true -> Py.digit_run s = (s, "").
Proof.
  induction s as [|c s IH]; simpl; [reflexivity|].
  intro H. apply andb_prop in H as [H1 H2]. rewrite H1, (IH H2). reflexivity.
Qed.

Lemma search_n_pow_digits : forall d,
  Py.all_digits d = true -> d <> "" -> Py.search_n_pow ("n^" ++ d) = Some d.
Proof.
  intros d H Hne. cbn. rewrite (digit_run_all d H).
  destruct d; [congruence | reflexivity].
Qed.

Lemma search_n_pow_str_nat : forall n,
  Py.search_n_pow ("n^" ++ Py.str_nat n) = Some (Py.str_nat n).
Proof.
  intro n. apply search_n_pow_digits; auto using str_nat_digits, str_nat_nonempty.
Qed.

Lemma search_n_pow_iterative : forall n,
  Py.search_n_pow ("T(n) = cn^" ++ Py.str_nat n) = Some (Py.str_nat n).
Proof.
  intro n. pose proof (str_nat_nonempty n) as Hne.
  cbn. rewrite (digit_run_all _ (str_nat_digits n)).
  destruct (Py.str_nat n); [congruence | reflexivity].
Qed.

Ltac max_lia :=
  unfold list_max in *;
  repeat match goal with
  | |- context [Init.Nat.max ?a ?b] =>
      destruct (Nat.max_spec a b) as [[? ->]|[? ->]]
  end; lia.

Lemma fold_max_shift : forall (f : node -> nat) X c l,
  fold_right Nat.max X (map (fun x => c + f x) l)
  = match l with [] => X | _ => Nat.max X (c + list_max (map f l)) end.
Proof.
  intros f X c l. induction l as [|a l IH]; [reflexivity|].
  cbn [map fold_right list_max]. rewrite IH.
  destruct l; simpl; max_lia.
Qed.

Ltac rewrite_counts :=
  repeat match goal with
  | H : Forall _ ?l |- context [map (fun s => count_loop_depth s ?k) ?l] =>
      rewrite (map_ext_in (fun s => count_loop_depth s k)
                 (fun s => k + SpecSide.loop_nesting_depth s) l)
        by (intros x Hx; rewrite Forall_forall in H; apply H; exact Hx)
  end.

Lemma count_loop_depth_spec : forall n c,
  count_loop_depth n c = c + SpecSide.loop_nesting_depth n.
Proof.
  intro n.
  induction n using node_ind'; intro cur; simpl; try lia.
  (* If *)
  all: try (destruct e as [l|]; simpl in *; rewrite_counts;
            rewrite ?fold_max_shift;
            destruct t; try destruct l; simpl; lia).
  all: rewrite_counts; rewrite fold_max_shift.
  (* Program, Function *)
  all: try (destruct fs; simpl; lia).
  all: try (destruct b; simpl; lia).
Qed.

Lemma contains_n_pow_iterative : forall x,
  Py.contains "n^" ("T(n) = cn^" ++ x) = true.
Proof. intro x. destruct x; reflexivity. Qed.

Lemma solve_iterative : forall n,
  solve_recurrence (analyze_iterative n)
  = inr (mk_bound (SpecSide.depth_complexity (count_loop_depth n 0)) "Θ" 95).
Proof.
  intro n. unfold solve_recurrence, analyze_iterative.
  destruct (count_loop_depth n 0) as [|[|[|d]]]; try reflexivity.
  cbn -[Py.search_n_pow Py.str_nat Py.contains String.append].
  unfold analyze_loops. cbn [equation].
  rewrite contains_n_pow_iterative, search_n_pow_iterative. reflexivity.
Qed.

Lemma no_recursion_pattern_none : forall nm ps b,
  has_recursion (analyze_recursive_algorithm nm ps b) = false ->
  ri_pattern_type (analyze_recursive_algorithm nm ps b) = "none".
Proof.
  intros nm ps b H. unfold analyze_recursive_algorithm in *.
  destruct (find_recursive_calls (Function nm ps b) nm); [reflexivity | discriminate].
Qed.

Lemma construct_iterative : forall n ri,
  has_recursion ri = false -> construct_recurrence n (Some ri) = inr (analyze_iterative n).
Proof. intros n ri H. unfold construct_recurrence. rewrite H. reflexivity. Qed.

Lemma linear_has_recursion : forall nm ps b,
  ri_pattern_type (analyze_recursive_algorithm nm ps b) = "linear" ->
  has_recursion (analyze_recursive_algorithm nm ps b) = true.
Proof.
  intros nm ps b H.
  destruct (has_recursion (analyze_recursive_algorithm nm ps b)) eqn:E; [reflexivity|].
  rewrite (no_recursion_pattern_none nm ps b E) in H. discriminate.
Qed.

(** The heuristic engine on a [linear] function. *)
Lemma linear_function_node : forall nm ps b,
  ri_pattern_type (analyze_recursive_algorithm nm ps b) = "linear" ->
  analyze_function_node (Function nm ps b) (Some (analyze_recursive_algorithm nm ps b))
  = inr (mk_rec "T(n) = T(n-1) + c" (Some 1) None "c"
           [("T(0)", "c"); ("T(1)", "c")] "Substitution",
         mk_bound "n" "Θ" 95).
Proof.
  intros nm ps b H.
  unfold analyze_function_node, construct_recurrence.
  rewrite (linear_has_recursion nm ps b H), H. reflexivity.
Qed.

Lemma two_distinct_length : forall (l : list Z) x y,
  In x l -> In y l -> x <> y -> (2 <= length l)%nat.
Proof.
  intros l x y Hx Hy Hne. destruct l as [|a [|a' l]]; simpl in *; [contradiction| |lia].
  destruct Hx as [<-|[]]; destruct Hy as [<-|[]]. congruence.
Qed.

(** Two recursive calls that subtract two different constants from a
    parameter make [has_multiple_subtractions] true. *)
Lemma two_subtractions_multi : forall c1 c2 p q k1 k2,
  In (BinOp (Var p) "-" (Number k1)) (ci_args c1) ->
  In (BinOp (Var q) "-" (Number k2)) (ci_args c2) ->
  k1 <> k2 ->
  ((2 <=? length (flat_map subtraction_value (flat_map ci_args [c1; c2])))%nat
   && (2 <=? length (nodup Z.eq_dec
                       (flat_map subtraction_value (flat_map ci_args [c1; c2]))))%nat)
  = true.
Proof.
  intros c1 c2 p q k1 k2 H1 H2 Hne.
  set (vs := flat_map subtraction_value (flat_map ci_args [c1; c2])).
  assert (In k1 vs /\ In k2 vs) as [I1 I2].
  { split; apply in_flat_map.
    - exists (BinOp (Var p) "-" (Number k1)). split; [|simpl; left; reflexivity].
      apply in_flat_map. exists c1. split; [simpl; auto | exact H1].
    - exists (BinOp (Var q) "-" (Number k2)). split; [|simpl; left; reflexivity].
      apply in_flat_map. exists c2. split; [simpl; auto | exact H2]. }
  apply andb_true_intro; split; apply Nat.leb_le.
  - exact (two_distinct_length vs k1 k2 I1 I2 Hne).
  - apply (two_distinct_length _ k1 k2); try apply nodup_In; assumption.
Qed.

Lemma binary_classification : forall nm ps b c1 c2 p q k1 k2,
  find_recursive_calls (Function nm ps b) nm = [c1; c2] ->
  has_mutually_exclusive_recursive_returns (Function nm ps b) = false ->
  In (BinOp (Var p) "-" (Number k1)) (ci_args c1) ->
  In (BinOp (Var q) "-" (Number k2)) (ci_args c2) ->
  k1 <> k2 ->
  analyze_recursive_algorithm nm ps b
  = mk_rec_info nm true [c1; c2] "binary" (Some "T(n) = T(n-1) + T(n-2) + O(1)") false.
Proof.
  intros nm ps b c1 c2 p q k1 k2 Hc He H1 H2 Hne.
  pose proof (two_subtractions_multi c1 c2 p q k1 k2 H1 H2 Hne) as Hm.
  unfold analyze_recursive_algorithm. rewrite Hc, He.
  unfold derive_recurrence_relation, analyze_call_pattern. cbv zeta.
  rewrite Hm. reflexivity.
Qed.

Section DictFacts.
Import MathEngine.

Context {V : Type}.

Lemma get_item_set_item : forall (d : list (string * V)) k v nm,
  get_item nm (set_item k v d) = if String.eqb k nm then Some v else get_item nm d.
Proof.
  induction d as [|[k' v'] d IH]; intros k v nm; simpl; [reflexivity|].
  destruct (String.eqb_spec k' k) as [->|Hne]; simpl.
  - destruct (String.eqb k nm); reflexivity.
  - rewrite IH. destruct (String.eqb_spec k' nm) as [->|]; [|reflexivity].
    destruct (String.eqb_spec k nm) as [->|]; [congruence | reflexivity].
Qed.

Lemma keys_set_item : forall (d : list (string * V)) k v x,
  In x (map fst (set_item k v d)) <-> x = k \/ In x (map fst d).
Proof.
  induction d as [|[k' v'] d IH]; intros k v x; simpl; [intuition congruence|].
  destruct (String.eqb_spec k' k) as [->|Hne]; simpl; [intuition congruence|].
  rewrite IH. intuition congruence.
Qed.

Lemma nodup_set_item : forall (d : list (string * V)) k v,
  NoDup (map fst d) -> NoDup (map fst (set_item k v d)).
Proof.
  induction d as [|[k' v'] d IH]; intros k v H; simpl.
  - constructor; [intros []| constructor].
  - inversion H as [|? ? Hn Hd]; subst.
    destruct (String.eqb_spec k' k) as [->|Hne]; simpl; constructor; auto.
    rewrite keys_set_item. intros [->|]; auto.
Qed.

Variable key : (string * list string * list node) -> string.
Variable val : (string * list string * list node) -> V.
Variable f : list (string * V) -> (string * list string * list node) -> list (string * V).
Hypothesis f_set : forall acc d, f acc d = set_item (key d) (val d) acc.

Lemma fold_set_get : forall defs acc nm,
  get_item nm (fold_left f defs acc)
  = match find (fun d => String.eqb (key d) nm) (rev defs) with
    | Some d => Some (val d)
    | None => get_item nm acc
    end.
Proof.
  intros defs acc nm. induction defs as [|d defs IH] using rev_ind; [reflexivity|].
  rewrite fold_left_app, rev_app_distr. simpl. rewrite f_set, get_item_set_item, IH.
  destruct (String.eqb (key d) nm); reflexivity.
Qed.

Lemma fold_set_keys : forall defs acc x,
  In x (map fst (fold_left f defs acc)) <-> In x (map fst acc) \/ In x (map key defs).
Proof.
  intros defs acc x. induction defs as [|d defs IH] using rev_ind; simpl; [tauto|].
  rewrite fold_left_app, map_app. simpl. rewrite f_set, keys_set_item, IH, in_app_iff.
  simpl. intuition.
Qed.

Lemma fold_set_nodup : forall defs acc,
  NoDup (map fst acc) -> NoDup (map fst (fold_left f defs acc)).
Proof.
  intros defs acc H. induction defs as [|d defs IH] using rev_ind; [exact H|].
  rewrite fold_left_app. simpl. rewrite f_set. apply nodup_set_item, IH.
Qed.

End DictFacts.

Section MapFacts.
Import MathEngine.

Lemma map_solve_keys : forall {A B} (g : A -> string -> B) (raw : list (string * A)),
  map fst (map (fun '(nm, r) => (nm, g r nm)) raw) = map fst raw.
Proof. intros A B g raw. induction raw as [|[k v] raw IH]; simpl; congruence. Qed.

Lemma map_solve_get : forall {A B} (g : A -> string -> B) (raw : list (string * A)) nm,
  get_item nm (map (fun '(nm, r) => (nm, g r nm)) raw)
  = option_map (fun r => g r nm) (get_item nm raw).
Proof.
  intros A B g raw nm. induction raw as [|[k v] raw IH]; simpl; [reflexivity|].
  destruct (String.eqb_spec k nm) as [->|]; [reflexivity | exact IH].
Qed.

End MapFacts.

(** [_apply_master_theorem] reads back the degree of an [f(n)] written
    in the engine's polynomial form. *)
Lemma master_degree_form : forall fn c,
  SpecSide.degree_form fn c = true -> master_degree fn = c.
Proof.
  intros fn c H. unfold master_degree.
  destruct c as [|[|c]]; cbn [SpecSide.degree_form] in H.
  - rewrite H. reflexivity.
  - apply String.eqb_eq in H. subst. reflexivity.
  - apply String.eqb_eq in H. subst fn.
    pose proof (search_n_pow_str_nat (S (S c))) as Hs. cbn [String.append] in Hs.
    cbn -[Py.str_nat Py.search_n_pow Py.int_of_digits].
    destruct (String.eqb_spec (Py.str_nat (S (S c))) "2") as [E|E].
    + change "2" with (Py.str_nat 2) in E. apply str_nat_inj in E.
      rewrite E. reflexivity.
    + rewrite Hs, int_of_digits_str_nat. reflexivity.
Qed.

Lemma master_log_nonneg : forall a b,
  (1 <= a)%nat -> (1 < b)%nat -> (0 <= ln (INR a) / ln (INR b))%R.
Proof.
  intros a b Ha Hb.
  assert (Hla : (0 <= ln (INR a))%R).
  { destruct (Nat.eq_dec a 1) as [->|Hne]; [simpl; rewrite ln_1; lra|].
    rewrite <- ln_1. left. apply ln_increasing; [lra|].
    change 1%R with (INR 1). apply lt_INR. lia. }
  assert (Hlb : (0 < ln (INR b))%R).
  { rewrite <- ln_1. apply ln_increasing; [lra|].
    change 1%R with (INR 1). apply lt_INR. lia. }
  unfold Rdiv. apply Rmult_le_pos; [exact Hla|]. left. apply Rinv_0_lt_compat. exact Hlb.
Qed.

(** The three cases of [_apply_master_theorem], with tolerance
    [master_epsilon], on an [f(n)] of degree [c]. *)
Lemma apply_master_theorem_cases : forall eq a b fn bc c,
  (1 <= a)%nat -> (1 < b)%nat -> SpecSide.degree_form fn c = true ->
  exists X,
    solve_recurrence (mk_rec eq (Some a) (Some b) fn bc "Master Theorem")
    = inr (mk_bound X "Θ" 95) /\
    ((INR c < ln (INR a) / ln (INR b) - master_epsilon)%R ->
       X = format_complexity (ln (INR a) / ln (INR b))) /\
    ((Rabs (INR c - ln (INR a) / ln (INR b)) < master_epsilon)%R ->
       X = SpecSide.master_case2 c) /\
    ((ln (INR a) / ln (INR b) + master_epsilon < INR c)%R -> X = fn).
Proof.
  intros eq a b fn bc c Ha Hb Hf.
  pose proof (master_log_nonneg a b Ha Hb) as HL.
  set (L := (ln (INR a) / ln (INR b))%R) in *.
  unfold solve_recurrence, apply_master_theorem. cbn [method_used ra rb f_n].
  replace (String.eqb "Master Theorem" "Master Theorem") with true by reflexivity.
  replace (Nat.eqb a 0) with false by (symmetry; apply Nat.eqb_neq; lia).
  replace (Nat.eqb b 0) with false by (symmetry; apply Nat.eqb_neq; lia).
  replace (Nat.eqb b 1) with false by (symmetry; apply Nat.eqb_neq; lia).
  rewrite (master_degree_form fn c Hf). fold L.
  eexists. split; [reflexivity|].
  unfold master_epsilon in *.
  split; [|split].
  - intro H. destruct (Rlt_dec (INR c) (L - 1/100)); [reflexivity | contradiction].
  - intro H. apply Rabs_def2 in H as [H1 H2].
    destruct (Rlt_dec (INR c) (L - 1/100)) as [H3|_]; [lra|].
    destruct (Rlt_dec (Rabs (INR c - L)) (1/100)) as [_|H4].
    + destruct c as [|[|c]]; reflexivity.
    + exfalso. apply H4. apply Rabs_def1; lra.
  - intro H.
    destruct (Rlt_dec (INR c) (L - 1/100)) as [H3|_]; [lra|].
    destruct (Rlt_dec (Rabs (INR c - L)) (1/100)) as [H4|_].
    { apply Rabs_def2 in H4 as [H5 H6]. lra. }
    destruct c as [|[|c]]; cbn [SpecSide.degree_form] in Hf.
    + exfalso. simpl in H. lra.
    + apply String.eqb_eq in Hf. subst. reflexivity.
    + apply String.eqb_eq in Hf. subst. reflexivity.
Qed.

(** [ln x <= x - 1] for [x > 0]. *)
Lemma ln_le_pred : forall x, (0 < x)%R -> (ln x <= x - 1)%R.
Proof.
  intros x Hx. pose proof (exp_ineq1_le (ln x)) as H. rewrite exp_ln in H by exact Hx. lra.
Qed.

(** [log_100 101] lies strictly between [1] and [1 + 1/100]. *)
Lemma log_100_101_bounds :
  (1 < ln 101 / ln 100 < 1 + 1/100)%R.
Proof.
  assert (H100 : (1 < ln 100)%R).
  { rewrite <- (ln_exp 1). apply ln_increasing; [apply exp_pos|].
    pose proof exp_le_3. lra. }
  assert (Hsplit : (ln 101 = ln 100 + ln (101/100))%R).
  { rewrite <- ln_mult by lra. f_equal. field. }
  assert (Hsmall : (0 < ln (101/100) <= 1/100)%R).
  { split.
    - rewrite <- ln_1. apply ln_increasing; lra.
    - pose proof (ln_le_pred (101/100)) as H. lra. }
  set (l := ln 100) in *. set (m := ln 101) in *.
  assert (Hl : (0 < l)%R) by lra.
  split.
  - apply (Rmult_lt_reg_r l); [exact Hl|].
    unfold Rdiv. rewrite Rmult_assoc, Rinv_l by lra. lra.
  - apply (Rmult_lt_reg_r l); [exact Hl|].
    unfold Rdiv. rewrite Rmult_assoc, Rinv_l by lra. lra.
Qed.

Section PipelineFacts.
Import Orchestrator MathEngine.

Variable tree : Type.
Variable empty_tree : tree.
Variable parse_code : string -> exn + node.
Variable normalize_recursive_terms :
  list (string * rec_info) -> cexpr -> string -> cexpr.
Variable solve : list (string * rec_info) -> cexpr -> string -> string.
Variable str_cexpr : cexpr -> string.
Variable build_tree : string -> exn + tree.
Variable math_state0 : math_state.
Variable elapsed : nat.

Let body := process_code_body tree empty_tree parse_code normalize_recursive_terms
              solve str_cexpr build_tree math_state0 elapsed.
Let run := process_code tree empty_tree parse_code normalize_recursive_terms
             solve str_cexpr build_tree math_state0 elapsed.

(** Whatever the [try] block returns carries no error and an empty
    [level_costs]: the level-cost lookup always raises, and its handler
    keeps the list empty. *)
Lemma process_code_body_inr : forall code hint r,
  body code hint = inr r -> error _ r = None /\ level_costs _ r = [].
Proof.
  intros code hint r. subst body. unfold process_code_body, estimate_level_costs.
  repeat match goal with
  | |- context [match ?x with _ => _ end] => destruct x
  end; intro H; try discriminate; injection H as <-; split; reflexivity.
Qed.

Lemma process_code_unfold : forall code hint,
  run code hint = match body code hint with
                  | inr r => r
                  | inl e => error_result tree empty_tree hint code e
                  end.
Proof. reflexivity. Qed.

(** The path of a first function [nm] that the heuristic engine solves. *)
Lemma process_code_body_ok : forall code hint nm ps b rest defs hr hb,
  parse_code code = inr (Program (Function nm ps b :: rest)) ->
  all_functions rest = Some defs ->
  analyze_function_node (Function nm ps b)
    (Some (analyze_recursive_algorithm nm ps b)) = inr (hr, hb) ->
  (forall s, exists t, build_tree s = inr t) ->
  exists r, body code hint = inr r /\ run code hint = r /\
    name _ r = nm /\ error _ r = None /\ level_costs _ r = [] /\
    heur_equation _ r = equation hr /\
    heur_complexity _ r = notation hb ++ "(" ++ complexity hb ++ ")" /\
    heur_method _ r = method_used hr /\
    is_recursive _ r = has_recursion (analyze_recursive_algorithm nm ps b) /\
    recursion_pattern _ r = ri_pattern_type (analyze_recursive_algorithm nm ps b).
Proof.
  intros code hint nm ps b rest defs hr hb Hp Hf Hn Hb.
  assert (Hbody : exists r, body code hint = inr r /\
    name _ r = nm /\ heur_equation _ r = equation hr /\
    heur_complexity _ r = notation hb ++ "(" ++ complexity hb ++ ")" /\
    heur_method _ r = method_used hr /\
    is_recursive _ r = has_recursion (analyze_recursive_algorithm nm ps b) /\
    recursion_pattern _ r = ri_pattern_type (analyze_recursive_algorithm nm ps b)).
  { subst body. unfold process_code_body. rewrite Hp.
    unfold MathEngine.analyze. cbn [all_functions]. rewrite Hf.
    rewrite Hn.
    match goal with
    | |- context [if ?c then build_tree ?s else inr empty_tree] =>
        destruct c; [destruct (Hb s) as [t ->] |]
    end; eexists; (split; [reflexivity|]); repeat split. }
  destruct Hbody as (r & Hr & H1 & H2 & H3 & H4 & H5 & H6).
  destruct (process_code_body_inr code hint r Hr) as [He Hl].
  exists r. rewrite process_code_unfold, Hr. repeat split; assumption.
Qed.

End PipelineFacts.

End Facts.

(* ================================================================== *)
(** * The specification's claims *)

Module Claims.
Import Classifier Asymptotic Scenarios Facts.

(** C4 (code bug): [_count_loop_depth] raises the depth only while it
    walks a loop's body, so a loop whose body is empty counts as depth 0,
    while the sibling [CaseAnalyzer._count_nested_loops] counts it as one
    level.  The non-recursive [vacio], a single [for] loop of depth 1,
    gets the bound Θ(1) with the equation [T(n) = c] instead of Θ(n). *)
Lemma empty_loop_counted_as_constant :
  has_loop empty_loop = true /\
  count_loop_depth empty_loop 0 = 0%nat /\
  CaseDetect.count_nested_loops empty_loop 0 = 1%nat /\
  analyze_function_node empty_loop
    (Some (analyze_recursive_algorithm "vacio" ["n"] [For "i" (Number 1) (Var "n") []]))
  = inr (mk_rec "T(n) = c" None None "c" [("T(0)", "c")] "Loop Analysis",
         mk_bound "1" "Θ" 95).
Proof. repeat split; vm_compute; reflexivity. Qed.

(** C7: the cost pass multiplies a [While] loop's condition-plus-body
    cost by the positive symbol [k], but a [Repeat] loop has no
    [_get_cost_Repeat] method and falls to [_get_cost_default]: its cost
    is the constant [1], whatever its body and condition. *)
Theorem repeat_cost_is_default : forall fc cur b c,
  MathEngine.get_cost fc cur (Repeat b c) = MathEngine.CInt 1 /\
  MathEngine.get_cost fc cur (While c b)
  = MathEngine.cmul (MathEngine.CPos "k")
      (MathEngine.cadd (MathEngine.get_cost fc cur c)
         (MathEngine.safe_sum (map (MathEngine.get_cost fc cur) b))).
Proof. intros fc cur b c. split; reflexivity. Qed.

(** C8: [process_code] never fills [level_costs]: the call
    [estimate_level_costs] names a method that [AsymptoticAnalyzer] does
    not define, the inner handler swallows the [AttributeError], and every
    result, recursive input or not, has an empty [level_costs] list. *)
Theorem level_costs_always_empty :
  forall (tree : Type) et parse norm solve strc build st0 el code hint,
  Orchestrator.level_costs tree
    (Orchestrator.process_code tree et parse norm solve strc build st0 el code hint)
  = [].
Proof.
  intros tree et parse norm solve strc build st0 el code hint.
  rewrite process_code_unfold.
  destruct (Orchestrator.process_code_body tree et parse norm solve strc build st0 el
              code hint) as [e|r] eqn:E.
  - reflexivity.
  - exact (proj2 (process_code_body_inr tree et parse norm solve strc build st0 el
                    code hint r E)).
Qed.

(** C2 (counterexample): on the factorial scenario the level-cost step
    raises ([estimate_level_costs] does not exist) and [process_code]
    returns a result whose [error] is [None]: that exception is not
    recorded in [AnalysisResult.error]. *)
Lemma level_cost_exception_not_recorded :
  Classifier.has_recursion
    (Classifier.analyze_recursive_algorithm "factorial" ["n"] factorial_body) = true /\
  Orchestrator.estimate_level_costs
    (Orchestrator.heur_equation _ (scenario_process_code factorial_src "factorial"))
  = inl (mk_exn "AttributeError"
           "'AsymptoticAnalyzer' object has no attribute 'estimate_level_costs'") /\
  Orchestrator.error _ (scenario_process_code factorial_src "factorial") = None.
Proof. vm_compute. repeat split; reflexivity. Qed.

(** C2 (amended): [process_code] never raises.  When its [try] block
    raises [e] (in parsing, the no-function check, the classifier, the
    math engine, the heuristic engine or the tree builder) the result is
    the error result, whose [error] is [str(e)]; when the block completes,
    its result is returned with [error = None] and an empty [level_costs]:
    an exception of the level-cost step is swallowed, not recorded. *)
Theorem process_code_traps_or_succeeds :
  forall (tree : Type) et parse norm solve strc build st0 el code hint,
  (forall e,
     Orchestrator.process_code_body tree et parse norm solve strc build st0 el code hint
     = inl e ->
     Orchestrator.process_code tree et parse norm solve strc build st0 el code hint
     = Orchestrator.error_result tree et hint code e /\
     Orchestrator.error tree
       (Orchestrator.process_code tree et parse norm solve strc build st0 el code hint)
     = Some (exn_msg e)) /\
  (forall r,
     Orchestrator.process_code_body tree et parse norm solve strc build st0 el code hint
     = inr r ->
     Orchestrator.process_code tree et parse norm solve strc build st0 el code hint = r /\
     Orchestrator.error tree r = None /\ Orchestrator.level_costs tree r = []).
Proof.
  intros tree et parse norm solve strc build st0 el code hint. split.
  - intros e E. rewrite process_code_unfold, E. split; reflexivity.
  - intros r E. rewrite process_code_unfold, E.
    destruct (process_code_body_inr tree et parse norm solve strc build st0 el
                code hint r E) as [H1 H2].
    repeat split; assumption.
Qed.

(** Witness for C2: a source the parser rejects, and the factorial
    scenario. *)
Lemma process_code_traps_or_succeeds_witness :
  Orchestrator.error _ (scenario_process_code "begin" "x")
  = Some "source outside the scenario list" /\
  Orchestrator.error _ (scenario_process_code factorial_src "factorial") = None.
Proof.
  destruct (process_code_traps_or_succeeds unit tt scenario_parse (fun _ e _ => e)
              (fun _ _ _ => "O(?)") (fun _ => "N/A") (fun _ => inr tt)
              empty_math_state 0 "begin" "x") as [Hbad _].
  destruct (process_code_traps_or_succeeds unit tt scenario_parse (fun _ e _ => e)
              (fun _ _ _ => "O(?)") (fun _ => "N/A") (fun _ => inr tt)
              empty_math_state 0 factorial_src "factorial") as [_ Hok].
  split.
  - exact (proj2 (Hbad (mk_exn "UnexpectedInput" "source outside the scenario list")
                    ltac:(vm_compute; reflexivity))).
  - exact (proj1 (proj2 (Hok _ ltac:(vm_compute; reflexivity)))).
Defined.

(** C1: for the binary search of the scenario list, whose two recursive
    calls are returned from the two exclusive branches of an [If], the
    classifier reports [binary_exclusive] with the relation
    [T(n) = T(n/2) + O(1)], but [_construct_recurrence] has no branch for
    that pattern and falls to its "several calls" case: the result's
    [heur_equation] is [T(n) = 2T(n-1) + c] and [heur_complexity] is
    [Θ(2^n)], whatever the sympy stages and the tree builder do. *)
Theorem binary_exclusive_heuristic_exponential :
  forall (tree : Type) et parse norm solve strc build st0 el code hint,
  parse code = inr (Program [busqueda_binaria]) ->
  (forall s, exists t, build s = inr t) ->
  Classifier.ri_pattern_type (Classifier.analyze_recursive_algorithm
    "busqueda_binaria" ["arr"; "izq"; "der"; "x"] busqueda_binaria_body)
  = "binary_exclusive" /\
  Classifier.recurrence_relation (Classifier.analyze_recursive_algorithm
    "busqueda_binaria" ["arr"; "izq"; "der"; "x"] busqueda_binaria_body)
  = Some "T(n) = T(n/2) + O(1)" /\
  Orchestrator.recursion_pattern tree
    (Orchestrator.process_code tree et parse norm solve strc build st0 el code hint)
  = "binary_exclusive" /\
  Orchestrator.heur_equation tree
    (Orchestrator.process_code tree et parse norm solve strc build st0 el code hint)
  = "T(n) = 2T(n-1) + c" /\
  Orchestrator.heur_complexity tree
    (Orchestrator.process_code tree et parse norm solve strc build st0 el code hint)
  = "Θ(2^n)" /\
  Orchestrator.error tree
    (Orchestrator.process_code tree et parse norm solve strc build st0 el code hint)
  = None.
Proof.
  intros tree et parse norm solve strc build st0 el code hint Hp Hb.
  destruct (process_code_body_ok tree et parse norm solve strc build st0 el code hint
              "busqueda_binaria" ["arr"; "izq"; "der"; "x"] busqueda_binaria_body [] []
              (mk_rec "T(n) = 2T(n-1) + c" (Some 2) None "c"
                 [("T(0)", "c"); ("T(1)", "c")] "Substitution")
              (mk_bound "2^n" "Θ" 95) Hp eq_refl ltac:(vm_compute; reflexivity) Hb)
    as (r & _ & -> & _ & He & _ & Heq & Hc & _ & _ & Hpat).
  rewrite He, Heq, Hc, Hpat. vm_compute. repeat split; reflexivity.
Qed.

(** Witness for C1: the scenario stages on the binary-search source. *)
Lemma binary_exclusive_heuristic_exponential_witness :
  scenario_parse busqueda_binaria_src = inr (Program [busqueda_binaria]) /\
  Orchestrator.heur_complexity _
    (scenario_process_code busqueda_binaria_src "busqueda_binaria") = "Θ(2^n)".
Proof.
  split; [vm_compute; reflexivity|].
  exact (proj1 (proj2 (proj2 (proj2 (proj2 (binary_exclusive_heuristic_exponential unit tt
    scenario_parse (fun _ e _ => e) (fun _ _ _ => "O(?)") (fun _ => "N/A")
    (fun _ => inr tt) empty_math_state 0 busqueda_binaria_src "busqueda_binaria"
    ltac:(vm_compute; reflexivity) (fun s => ex_intro _ tt eq_refl))))))).
Defined.

(** C3 (counterexample): for the factorial scenario the result's
    [heur_equation] is [T(n) = T(n-1) + c], not [T(n) = T(n-1) + O(1)]. *)
Lemma factorial_equation_uses_c :
  Orchestrator.heur_equation _ (scenario_process_code factorial_src "factorial")
  = "T(n) = T(n-1) + c" /\
  Orchestrator.heur_equation _ (scenario_process_code factorial_src "factorial")
  <> "T(n) = T(n-1) + O(1)".
Proof. vm_compute. split; [reflexivity | discriminate]. Qed.

(** C3 (amended): every recursive function classified [linear] gets the
    Substitution recurrence [T(n) = T(n-1) + c] and the tight bound Θ(n);
    for the factorial scenario the result's [heur_equation] is
    [T(n) = T(n-1) + c], its [heur_complexity] is [Θ(n)] and its pattern
    is [linear]. *)
Theorem linear_recursion_theta_n :
  (forall nm ps b,
     Classifier.ri_pattern_type (Classifier.analyze_recursive_algorithm nm ps b)
     = "linear" ->
     analyze_function_node (Function nm ps b)
       (Some (Classifier.analyze_recursive_algorithm nm ps b))
     = inr (mk_rec "T(n) = T(n-1) + c" (Some 1) None "c"
              [("T(0)", "c"); ("T(1)", "c")] "Substitution",
            mk_bound "n" "Θ" 95)) /\
  (forall (tree : Type) et parse norm solve strc build st0 el code hint,
     parse code = inr (Program [factorial]) ->
     (forall s, exists t, build s = inr t) ->
     Orchestrator.heur_equation tree
       (Orchestrator.process_code tree et parse norm solve strc build st0 el code hint)
     = "T(n) = T(n-1) + c" /\
     Orchestrator.heur_complexity tree
       (Orchestrator.process_code tree et parse norm solve strc build st0 el code hint)
     = "Θ(n)" /\
     Orchestrator.recursion_pattern tree
       (Orchestrator.process_code tree et parse norm solve strc build st0 el code hint)
     = "linear").
Proof.
  split.
  - intros nm ps b Hl. apply linear_function_node. exact Hl.
  - intros tree et parse norm solve strc build st0 el code hint Hp Hb.
    destruct (process_code_body_ok tree et parse norm solve strc build st0 el code hint
                "factorial" ["n"] factorial_body [] []
                (mk_rec "T(n) = T(n-1) + c" (Some 1) None "c"
                   [("T(0)", "c"); ("T(1)", "c")] "Substitution")
                (mk_bound "n" "Θ" 95) Hp eq_refl
                (linear_function_node "factorial" ["n"] factorial_body
                   ltac:(vm_compute; reflexivity)) Hb)
      as (r & _ & -> & _ & _ & _ & Heq & Hc & _ & _ & Hpat).
    rewrite Heq, Hc, Hpat. vm_compute. repeat split; reflexivity.
Qed.

(** Witness for C3: [factorial] on the scenario stages. *)
Lemma linear_recursion_theta_n_witness :
  Classifier.ri_pattern_type
    (Classifier.analyze_recursive_algorithm "factorial" ["n"] factorial_body) = "linear" /\
  Orchestrator.heur_complexity _ (scenario_process_code factorial_src "factorial") = "Θ(n)".
Proof.
  split; [vm_compute; reflexivity|].
  exact (proj1 (proj2 (proj2 linear_recursion_theta_n unit tt
    scenario_parse (fun _ e _ => e) (fun _ _ _ => "O(?)") (fun _ => "N/A")
    (fun _ => inr tt) empty_math_state 0 factorial_src "factorial"
    ltac:(vm_compute; reflexivity) (fun s => ex_intro _ tt eq_refl)))).
Defined.

(** C6: a function with exactly two recursive calls, not returned from
    mutually exclusive branches, whose arguments subtract two different
    integer constants from the same parameter, is classified [binary] with
    the relation [T(n) = T(n-1) + T(n-2) + O(1)], and the heuristic engine
    solves it by the Recurrence Tree method with the bound Θ(2^n). *)
Theorem fibonacci_shape_exponential : forall nm ps b c1 c2 p k1 k2,
  Classifier.find_recursive_calls (Function nm ps b) nm = [c1; c2] ->
  Classifier.has_mutually_exclusive_recursive_returns (Function nm ps b) = false ->
  In (BinOp (Var p) "-" (Number k1)) (Classifier.ci_args c1) ->
  In (BinOp (Var p) "-" (Number k2)) (Classifier.ci_args c2) ->
  k1 <> k2 ->
  Classifier.ri_pattern_type (Classifier.analyze_recursive_algorithm nm ps b) = "binary" /\
  Classifier.recurrence_relation (Classifier.analyze_recursive_algorithm nm ps b)
  = Some "T(n) = T(n-1) + T(n-2) + O(1)" /\
  exists rec,
    analyze_function_node (Function nm ps b)
      (Some (Classifier.analyze_recursive_algorithm nm ps b))
    = inr (rec, mk_bound "2^n" "Θ" 90) /\ method_used rec = "Recurrence Tree".
Proof.
  intros nm ps b c1 c2 p k1 k2 Hc He H1 H2 Hne.
  rewrite (binary_classification nm ps b c1 c2 p p k1 k2 Hc He H1 H2 Hne).
  split; [reflexivity|]. split; [reflexivity|].
  eexists. split; reflexivity.
Qed.

(** Witness for C6: [fib], with the calls [fib(n-1)] and [fib(n-2)]. *)
Lemma fibonacci_shape_exponential_witness :
  Classifier.find_recursive_calls fib "fib"
  = [Classifier.mk_call_info 1 1 [BinOp (Var "n") "-" (Number 1)];
     Classifier.mk_call_info 1 1 [BinOp (Var "n") "-" (Number 2)]] /\
  Classifier.ri_pattern_type (Classifier.analyze_recursive_algorithm "fib" ["n"] fib_body)
  = "binary".
Proof.
  split; [vm_compute; reflexivity|].
  exact (proj1 (fibonacci_shape_exponential "fib" ["n"] fib_body
    (Classifier.mk_call_info 1 1 [BinOp (Var "n") "-" (Number 1)])
    (Classifier.mk_call_info 1 1 [BinOp (Var "n") "-" (Number 2)]) "n" 1 2
    ltac:(vm_compute; reflexivity) ltac:(vm_compute; reflexivity)
    ltac:(simpl; left; reflexivity) ltac:(simpl; left; reflexivity)
    ltac:(lia))).
Defined.

(** C9: whenever the case analyzer settles on the type [constant], the
    best, worst and average cases it returns all have complexity Θ(1),
    whatever its AST detectors answer and whatever complexity it is given. *)
Theorem constant_type_all_theta_1 :
  forall det hbs cnt ast algorithm_type recurrence_eq comp best worst avg,
  Cases.resolved_type det hbs cnt ast algorithm_type recurrence_eq comp = "constant" ->
  Cases.analyze_all_cases det hbs cnt ast algorithm_type recurrence_eq comp
  = inr (best, worst, avg) ->
  Cases.ca_complexity best = "Θ(1)" /\ Cases.ca_complexity worst = "Θ(1)" /\
  Cases.ca_complexity avg = "Θ(1)".
Proof.
  intros det hbs cnt ast algorithm_type recurrence_eq comp best worst avg Hty H.
  unfold Cases.analyze_all_cases in H. cbv zeta in H. rewrite Hty in H.
  destruct (Cases.first_function_name ast) as [[nm|]|];
    [| discriminate |];
    (destruct (String.eqb comp "" && String.eqb recurrence_eq ""); [discriminate|]);
    injection H as <- <- <-; repeat split; reflexivity.
Qed.

(** Witness for C9: the constant function [c] with detectors that answer
    [constant], no binary-search shape and no active recursive call. *)
Lemma constant_type_all_theta_1_witness :
  Cases.resolved_type (fun _ => inr "constant") (fun _ => inr false) (fun _ => inr 0%nat)
    (Program [constant_fn]) "unknown" "T(n) = c" "Θ(1)" = "constant" /\
  Cases.ca_complexity (Cases.analyze_worst_case (Program [constant_fn]) "constant" "Θ(1)")
  = "Θ(1)".
Proof.
  split; [vm_compute; reflexivity|].
  exact (proj1 (proj2 (constant_type_all_theta_1
    (fun _ => inr "constant") (fun _ => inr false) (fun _ => inr 0%nat)
    (Program [constant_fn]) "unknown" "T(n) = c" "Θ(1)"
    (Cases.analyze_best_case (Program [constant_fn]) "constant" "Θ(1)")
    (Cases.analyze_worst_case (Program [constant_fn]) "constant" "Θ(1)")
    (Cases.analyze_average_case (Program [constant_fn]) "constant" "Θ(1)")
    ltac:(vm_compute; reflexivity) ltac:(vm_compute; reflexivity)))).
Defined.

(** C10: [MathematicalAnalyzer.analyze] raises [TypeError] on any value
    that is not a [Program] node, before touching its state; on a
    [Program] whose items are functions it returns a dict whose keys are
    exactly the function names (each once), and whose value for a name is
    [solve] applied to the normalised cost of the last function of that
    name. *)
Theorem analyze_typeerror_or_solved_map : forall norm solve,
  (forall v st,
     (forall fs, v <> MathEngine.PyNode (Program fs)) ->
     MathEngine.analyze norm solve v st
     = inl (mk_exn "TypeError" "Se esperaba un nodo Program.", st)) /\
  (forall fs defs st,
     MathEngine.all_functions fs = Some defs ->
     exists final st',
       MathEngine.analyze norm solve (MathEngine.PyNode (Program fs)) st = inr (final, st') /\
       NoDup (map fst final) /\
       (forall nm, In nm (map fst final) <-> In nm (map MathEngine.fname_of defs)) /\
       (forall nm,
          MathEngine.get_item nm final
          = option_map (fun d =>
              solve (MathEngine.function_metadata st')
                (norm (MathEngine.function_metadata st')
                   (MathEngine.get_cost (MathEngine.function_costs st') nm
                      (MathEngine.fnode_of d)) nm) nm)
              (SpecSide.last_def nm defs))).
Proof.
  intros norm solve. split.
  - intros v st Hv. destruct v as [n| | |]; try reflexivity.
    destruct n; try reflexivity. exfalso. exact (Hv _ eq_refl).
  - intros fs defs st Hf. unfold MathEngine.analyze. rewrite Hf.
    set (st1 := fold_left MathEngine.register_function defs st).
    set (val := fun d : string * list string * list node =>
                  norm (MathEngine.function_metadata st1)
                    (MathEngine.get_cost (MathEngine.function_costs st1)
                       (MathEngine.fname_of d) (MathEngine.fnode_of d))
                    (MathEngine.fname_of d)).
    assert (Hset : forall acc d, MathEngine.raw_result_step norm st1 acc d
                                 = MathEngine.set_item (MathEngine.fname_of d) (val d) acc)
      by reflexivity.
    do 2 eexists. split; [reflexivity|]. cbn [MathEngine.function_metadata
                                              MathEngine.function_costs].
    rewrite map_solve_keys. split; [|split].
    + apply (fold_set_nodup _ _ _ Hset). constructor.
    + intro nm. rewrite (fold_set_keys _ _ _ Hset). simpl. tauto.
    + intro nm. rewrite map_solve_get, (fold_set_get _ _ _ Hset).
      unfold SpecSide.last_def.
      destruct (find _ (rev defs)) as [d|] eqn:E; [|reflexivity].
      apply find_some in E as [_ E]. apply String.eqb_eq in E.
      simpl. unfold val. rewrite E. reflexivity.
Qed.

(** Witness for C10: an integer argument, and the program [factorial]. *)
Lemma analyze_typeerror_or_solved_map_witness :
  MathEngine.analyze (fun _ e _ => e) (fun _ _ _ => "O(?)") (MathEngine.PyInt 3)
    empty_math_state
  = inl (mk_exn "TypeError" "Se esperaba un nodo Program.", empty_math_state) /\
  exists final st',
    MathEngine.analyze (fun _ e _ => e) (fun _ _ _ => "O(?)")
      (MathEngine.PyNode (Program [factorial])) empty_math_state = inr (final, st') /\
    In "factorial" (map fst final).
Proof.
  destruct (analyze_typeerror_or_solved_map (fun _ e _ => e) (fun _ _ _ => "O(?)"))
    as [Hbad Hok].
  split.
  - apply Hbad. intros fs H. discriminate H.
  - destruct (Hok [factorial] [("factorial", ["n"], factorial_body)] empty_math_state
                ltac:(vm_compute; reflexivity)) as (final & st' & E & _ & Hk & _).
    exists final, st'. split; [exact E|].
    apply Hk. simpl. left. reflexivity.
Defined.

(** C5 (amended): on a divide-and-conquer recurrence [T(n) = aT(n/b) + f(n)]
    with [a >= 1], [b > 1] and [f(n)] of degree [c] (written [c]/[1], [n]
    or [n^c]), the two solvers apply the Master Theorem on [L = log_b a]
    differently.  The heuristic solver ([_apply_master_theorem]) uses
    the tolerance [ε = 0.01] and tight bounds: below [L - ε] the bound is
    [n^L] (as [_format_complexity] renders it), within [ε] it is
    [n^c log n] ([log n] for [c = 0], [n log n] for [c = 1]), and above
    [L + ε] it is [f(n)] itself.  The Master step of
    [MathematicalAnalyzer.solve_recurrence], with [f(n) = k n^c] and
    [k > 0], compares [c] with [L] exactly and returns O-terms:
    [O(n^L)] for [c < L], [O(n^L log n)] for [c = L], [O(f(n))] for
    [c > L]. *)
Theorem master_theorem_three_cases : forall eq a b fn bc c k,
  (1 <= a)%nat -> (1 < b)%nat -> SpecSide.degree_form fn c = true -> (0 < k)%R ->
  (exists X,
    solve_recurrence (mk_rec eq (Some a) (Some b) fn bc "Master Theorem")
    = inr (mk_bound X "Θ" 95) /\
    ((INR c < ln (INR a) / ln (INR b) - master_epsilon)%R ->
       X = format_complexity (ln (INR a) / ln (INR b))) /\
    ((Rabs (INR c - ln (INR a) / ln (INR b)) < master_epsilon)%R ->
       X = SpecSide.master_case2 c) /\
    ((ln (INR a) / ln (INR b) + master_epsilon < INR c)%R -> X = fn)) /\
  ((INR c < ln (INR a) / ln (INR b))%R ->
     MathMaster.master_step (INR a) (INR b) k c
     = MathMaster.BigO_pow (ln (INR a) / ln (INR b))) /\
  ((INR c = ln (INR a) / ln (INR b))%R ->
     MathMaster.master_step (INR a) (INR b) k c
     = MathMaster.BigO_pow_log (ln (INR a) / ln (INR b))) /\
  ((ln (INR a) / ln (INR b) < INR c)%R ->
     MathMaster.master_step (INR a) (INR b) k c = MathMaster.BigO_cost k c).
Proof.
  intros eq a b fn bc c k Ha Hb Hf Hk.
  split; [exact (apply_master_theorem_cases eq a b fn bc c Ha Hb Hf)|].
  assert (HA : (1 <= INR a)%R) by (change 1%R with (INR 1); apply le_INR; lia).
  assert (HB : (1 < INR b)%R) by (change 1%R with (INR 1); apply lt_INR; lia).
  set (L := (ln (INR a) / ln (INR b))%R).
  unfold MathMaster.master_step, MathMaster.ratio_limit. fold L.
  destruct (Rlt_dec (INR a) 1) as [H|_]; [lra|].
  destruct (Rle_dec (INR b) 1) as [H|_]; [lra|].
  destruct (Req_EM_T k 0) as [H|_]; [lra|].
  split; [|split]; intro Hc.
  - destruct (Rlt_dec (INR c) L) as [_|H]; [|contradiction].
    destruct (Req_EM_T 0 0) as [_|H]; [reflexivity | congruence].
  - destruct (Rlt_dec (INR c) L) as [H|_]; [lra|].
    destruct (Req_EM_T (INR c) L) as [_|H]; [|contradiction].
    destruct (Req_EM_T k 0) as [H|_]; [lra|].
    destruct (Rlt_dec 0 k) as [_|H]; [reflexivity | contradiction].
  - destruct (Rlt_dec (INR c) L) as [H|_]; [lra|].
    destruct (Req_EM_T (INR c) L) as [H|_]; [lra|].
    destruct (Rlt_dec 0 k) as [_|H]; [reflexivity | contradiction].
Qed.

(** Witness for C5: merge-sort shape, [a = b = 2], [f(n) = n], where
    [c = L = 1]: [n log n] for the heuristic solver and [O(n log n)]
    for the symbolic one. *)
Lemma master_theorem_three_cases_witness :
  (exists X,
    solve_recurrence (mk_rec "T(n) = 2T(n/2) + n" (Some 2) (Some 2) "n"
                        [("T(1)", "c")] "Master Theorem")
    = inr (mk_bound X "Θ" 95) /\
    ((Rabs (INR 1 - ln (INR 2) / ln (INR 2)) < master_epsilon)%R ->
       X = SpecSide.master_case2 1)) /\
  ((INR 1 = ln (INR 2) / ln (INR 2))%R ->
     MathMaster.master_step (INR 2) (INR 2) 1 1
     = MathMaster.BigO_pow_log (ln (INR 2) / ln (INR 2))).
Proof.
  destruct (master_theorem_three_cases "T(n) = 2T(n/2) + n" 2 2 "n" [("T(1)", "c")] 1 1
              ltac:(lia) ltac:(lia) ltac:(reflexivity) ltac:(lra))
    as ((X & H1 & _ & H2 & _) & _ & H3 & _).
  split; [exists X; split; [exact H1 | exact H2] | exact H3].
Defined.

(** C5 (counterexample): [T(n) = 101T(n/100) + n].  Here
    [L = log_100 101] lies in [(1, 1.01)]: the heuristic solver is in
    its tolerance band and answers Θ(n log n), while the symbolic
    solver's exact comparison puts [c = 1 < L] in case 1 and returns
    [O(n^L)], not [O(n^c log n)]. *)
Lemma master_tolerance_vs_exact_limit :
  solve_recurrence (mk_rec "T(n) = 101T(n/100) + n" (Some 101) (Some 100) "n"
                      [("T(1)", "c")] "Master Theorem")
  = inr (mk_bound "n log n" "Θ" 95) /\
  MathMaster.master_step (INR 101) (INR 100) 1 1
  = MathMaster.BigO_pow (ln (INR 101) / ln (INR 100)) /\
  (1 < ln (INR 101) / ln (INR 100) < 1 + master_epsilon)%R.
Proof.
  assert (E101 : INR 101 = 101%R) by (rewrite INR_IZR_INZ; reflexivity).
  assert (E100 : INR 100 = 100%R) by (rewrite INR_IZR_INZ; reflexivity).
  pose proof log_100_101_bounds as HL.
  rewrite E101, E100.
  split; [|split].
  - destruct (apply_master_theorem_cases "T(n) = 101T(n/100) + n" 101 100 "n"
                [("T(1)", "c")] 1 ltac:(lia) ltac:(lia) ltac:(reflexivity))
      as (X & HX & _ & H2 & _).
    rewrite HX, H2; [reflexivity|].
    rewrite E101, E100. unfold master_epsilon. apply Rabs_def1; simpl; lra.
  - unfold MathMaster.master_step, MathMaster.ratio_limit.
    destruct (Rlt_dec 101 1) as [H|_]; [lra|].
    destruct (Rle_dec 100 1) as [H|_]; [lra|].
    destruct (Req_EM_T 1 0) as [H|_]; [lra|].
    destruct (Rlt_dec (INR 1) (ln 101 / ln 100)) as [_|H]; [|simpl in H; lra].
    destruct (Req_EM_T 0 0) as [_|H]; [reflexivity | congruence].
  - unfold master_epsilon. exact HL.
Qed.

End Claims.

(* ================================================================== *)
(** * Further properties of the analyzers *)

Module DirFold.
Import Classifier CaseDetect.

Section DirFoldSim.
Context {A B : Type}.
Variable R : A -> B -> Prop.
Variables (h1 : node -> A) (c1 : A -> A -> A) (z1 : A).
Variables (h2 : node -> B) (c2 : B -> B -> B) (z2 : B).
Hypothesis Rz : R z1 z2.
Hypothesis Rc : forall a1 b1 a2 b2, R a1 b1 -> R a2 b2 -> R (c1 a1 a2) (c2 b1 b2).
Hypothesis Rh : forall m, R (h1 m) (h2 m).

Lemma fold_sim : forall la lb, Forall2 R la lb ->
  R (fold_right c1 z1 la) (fold_right c2 z2 lb).
Proof. induction 1; simpl; auto. Qed.

Lemma map_sim : forall l, Forall (fun x => R (dir_fold h1 c1 z1 x) (dir_fold h2 c2 z2 x)) l ->
  Forall2 R (map (dir_fold h1 c1 z1) l) (map (dir_fold h2 c2 z2) l).
Proof. induction 1; simpl; constructor; auto. Qed.

Lemma dir_fold_sim : forall n, R (dir_fold h1 c1 z1 n) (dir_fold h2 c2 z2 n).
Proof.
  induction n using node_ind'; cbn [dir_fold]; apply Rc; auto; apply fold_sim;
    repeat first [ apply Forall2_app | apply map_sim | constructor ]; auto.
  - destruct n1; repeat constructor; auto.
  - destruct e; simpl in *; [apply map_sim; auto | constructor].
Qed.

End DirFoldSim.

End DirFold.

Module DetectorFacts.
Import Classifier CaseDetect DirFold.

Lemma check_binary_division_false : forall n, check_binary_division n = false.
Proof.
  intro n. unfold check_binary_division.
  apply (dir_fold_sim (fun a (_ : unit) => a = false) _ _ _ (fun _ => tt) (fun _ _ => tt) tt).
  - reflexivity.
  - intros a1 [] a2 [] -> ->; reflexivity.
  - intros []; reflexivity.
Qed.

Lemma has_binary_search_pattern_false : forall ast, has_binary_search_pattern ast = false.
Proof.
  destruct ast; try reflexivity. simpl.
  induction functions as [|f fs IH]; simpl; [reflexivity|].
  rewrite check_binary_division_false. exact IH.
Qed.

Lemma check_false_count_zero : forall n nm,
  check_recursive_calls n nm = false -> count_recursive_calls n nm = 0%nat.
Proof.
  intros n nm. unfold check_recursive_calls, count_recursive_calls.
  apply (dir_fold_sim (fun a b => a = false -> b = 0%nat)).
  - reflexivity.
  - intros a1 b1 a2 b2 H1 H2 H. apply orb_false_iff in H as [Ha1 Ha2].
    rewrite H1, H2 by assumption. reflexivity.
  - intros m H. rewrite H. reflexivity.
Qed.

Lemma no_loops_no_early_return : forall n,
  has_loops n = false -> has_early_return_in_loop n = inr false.
Proof.
  intro n. unfold has_loops, has_early_return_in_loop.
  apply (dir_fold_sim (fun a b => a = false -> b = inr false)).
  - reflexivity.
  - intros a1 b1 a2 b2 H1 H2 H. apply orb_false_iff in H as [Ha1 Ha2].
    rewrite H1, H2 by assumption. reflexivity.
  - intros []; simpl; intros; try reflexivity; discriminate.
Qed.

Lemma unary_calls_no_fib_decrements : forall n,
  ExtraSpec.calls_at_most_unary n = true -> has_fibonacci_decrement_pattern n = false.
Proof.
  intros n H. unfold ExtraSpec.calls_at_most_unary in H. apply negb_true_iff in H.
  revert H. unfold has_fibonacci_decrement_pattern.
  apply (dir_fold_sim (fun a b => a = false -> b = false)).
  - reflexivity.
  - intros a1 b1 a2 b2 H1 H2 H. apply orb_false_iff in H as [Ha1 Ha2].
    rewrite H1, H2 by assumption. reflexivity.
  - intros [] H; try reflexivity.
    destruct args as [|a [|a' r]]; [reflexivity| |discriminate].
    unfold fib_decrements_here. cbn [flat_map]. rewrite app_nil_r.
    destruct a; try reflexivity. destruct a2; try reflexivity.
    unfold decrement_of. destruct (String.eqb op "-"); [|reflexivity].
    cbn [existsb]. destruct (Z.eqb_spec 1 value) as [<-|H1]; [reflexivity|].
    reflexivity.
Qed.

Lemma fold_orb_existsb : forall (g : node -> bool) l,
  fold_right orb false (map g l) = existsb g l.
Proof. induction l; simpl; congruence. Qed.

Lemma loop_body_scan_if : forall b1 c t el b2,
  forallb (fun x => match x with Return _ | If _ _ _ => false | _ => true end) b1 = true ->
  loop_body_scan (b1 ++ If c t el :: b2)
  = inl (mk_exn "AttributeError" "'If' object has no attribute 'then_block'").
Proof.
  induction b1 as [|x b1 IH]; intros c t el b2 H; [reflexivity|].
  simpl in H. apply andb_true_iff in H as [Hx H].
  simpl. destruct x; try discriminate; apply IH; exact H.
Qed.

Lemma fold_or_exn_app : forall (g : node -> exn + bool) pre x post,
  forallb (fun y => negb (has_loops y)) pre = true ->
  (forall y, has_loops y = false -> g y = inr false) ->
  fold_right or_exn (inr false) (map g (pre ++ x :: post))
  = or_exn (g x) (fold_right or_exn (inr false) (map g post)).
Proof.
  induction pre as [|y pre IH]; intros x post H Hg; [reflexivity|].
  simpl in H. apply andb_true_iff in H as [Hy H].
  simpl. rewrite Hg by (apply negb_true_iff; exact Hy). simpl. apply IH; assumption.
Qed.

End DetectorFacts.

Module DetectorProps.
Import Classifier CaseDetect DirFold DetectorFacts.

(** X1: [_has_binary_search_pattern] returns False on every AST, so [_detect_algorithm_type] never answers 'binary_search'. *)
Theorem binary_search_never_detected : forall ast,
  has_binary_search_pattern ast = false
  /\ detect_algorithm_type ast <> inr "binary_search".
Proof.
  intro ast. split; [apply has_binary_search_pattern_false|].
  unfold detect_algorithm_type. rewrite has_binary_search_pattern_false.
  repeat match goal with
         | |- context [match ?x with _ => _ end] => destruct x
         end; congruence.
Qed.

(** X2: for a non-recursive function with one [For]/[While] loop whose body reaches an [If] before any [Return], [_detect_algorithm_type] raises AttributeError (from [_has_return_in_if]) instead of answering 'linear_search'. *)
Theorem linear_search_detection_raises : forall nm ps pre loop post b1 c t el b2,
  is_loop loop = true ->
  body_of loop = Some (b1 ++ If c t el :: b2)%list ->
  forallb (fun x => negb (has_loops x)) pre = true ->
  forallb (fun x => match x with Return _ | If _ _ _ => false | _ => true end) b1 = true ->
  check_recursive_calls (Function nm ps (pre ++ loop :: post)) nm = false ->
  (count_nested_loops (Program [Function nm ps (pre ++ loop :: post)]) 0 < 2)%nat ->
  detect_algorithm_type (Program [Function nm ps (pre ++ loop :: post)])
  = inl (mk_exn "AttributeError" "'If' object has no attribute 'then_block'").
Proof.
  intros nm ps pre loop post b1 c t el b2 Hloop Hbody Hpre Hb1 Hrec Hnest.
  set (f := Function nm ps (pre ++ loop :: post)) in *.
  assert (Hcount : count_recursive_calls f nm = 0%nat)
    by (apply check_false_count_zero; exact Hrec).
  assert (Hlp : has_loops (Program [f]) = true).
  { unfold has_loops. subst f. cbn [dir_fold fold_right map is_loop].
    rewrite fold_orb_existsb, existsb_app. cbn [existsb].
    destruct loop; try discriminate; cbn [dir_fold is_loop orb];
      rewrite orb_true_r; reflexivity. }
  assert (Hname : func_name_of f = inr nm) by reflexivity.
  unfold detect_algorithm_type.
  cbn [has_recursion has_divide_conquer_pattern is_fibonacci_pattern any_exn].
  rewrite Hname, Hrec, Hcount, has_binary_search_pattern_false, Hlp.
  apply Nat.leb_gt in Hnest. rewrite Hnest.
  replace (if Py.contains "fib" (Py.lower nm) then inr (0 =? 2)%nat
           else inr ((0 =? 2)%nat && has_fibonacci_decrement_pattern f))
    with (@inr exn bool false)
    by (destruct (Py.contains "fib" (Py.lower nm)); reflexivity).
  cbn [or_exn Nat.leb].
  unfold has_early_return_in_loop. cbn [dir_fold fold_right map]. unfold f.
  cbn [dir_fold].
  rewrite fold_or_exn_app;
    [| exact Hpre | intros y Hy; apply no_loops_no_early_return; exact Hy].
  destruct loop; try discriminate; simpl in Hbody; injection Hbody as Hb; subst;
    cbn [dir_fold early_return_here]; rewrite loop_body_scan_if by exact Hb1; reflexivity.
Qed.

(** X3: a function whose name does not contain 'fib', with exactly two self-calls and no call of two or more arguments, is detected as 'divide_conquer', not 'fibonacci'. *)
Theorem fibonacci_shape_unnamed_divide_conquer : forall nm ps b,
  Py.contains "fib" (Py.lower nm) = false ->
  count_recursive_calls (Function nm ps b) nm = 2%nat ->
  ExtraSpec.calls_at_most_unary (Function nm ps b) = true ->
  detect_algorithm_type (Program [Function nm ps b]) = inr "divide_conquer".
Proof.
  intros nm ps b Hname Hcount Hunary.
  unfold detect_algorithm_type.
  cbn [has_recursion any_exn func_name_of has_divide_conquer_pattern is_fibonacci_pattern].
  rewrite Hname, Hcount, has_binary_search_pattern_false,
    (unary_calls_no_fib_decrements _ Hunary).
  destruct (check_recursive_calls (Function nm ps b) nm); reflexivity.
Qed.

End DetectorProps.

Module RefinementProps.
Import Classifier Asymptotic CaseDetect DirFold DetectorFacts.

Lemma contains_has_char : forall c p s,
  Py.contains (String c p) s = true -> ExtraSpec.has_char c s = true.
Proof.
  intros c p s. induction s as [|c' s IH]; intro H; [discriminate|].
  simpl in H |- *. apply orb_true_iff in H as [H|H].
  - destruct (ascii_dec c c') as [->|]; [|discriminate].
    rewrite Ascii.eqb_refl. reflexivity.
  - rewrite IH by exact H. apply orb_true_r.
Qed.

Lemma has_char_remove_spaces : forall c s,
  ExtraSpec.has_char c (Cases.remove_spaces s) = true -> ExtraSpec.has_char c s = true.
Proof.
  intros c s. induction s as [|c' s IH]; simpl; [discriminate|].
  destruct (Ascii.eqb c' " "); simpl; intro H.
  - rewrite IH by exact H. apply orb_true_r.
  - apply orb_true_iff in H as [H|H]; rewrite ?H; [reflexivity|].
    rewrite IH by exact H. apply orb_true_r.
Qed.

Lemma has_char_app : forall c s1 s2,
  ExtraSpec.has_char c (s1 ++ s2) = ExtraSpec.has_char c s1 || ExtraSpec.has_char c s2.
Proof.
  intros c s1 s2. induction s1 as [|c' s1 IH]; simpl; [reflexivity|].
  rewrite IH. apply orb_assoc.
Qed.

Lemma digits_no_t : forall s, Py.all_digits s = true -> ExtraSpec.has_char "t" s = false.
Proof.
  induction s as [|c s IH]; simpl; intro H; [reflexivity|].
  apply andb_true_iff in H as [Hc H]. rewrite IH by exact H. rewrite orb_false_r.
  destruct (Ascii.eqb_spec c "t") as [->|]; [discriminate|reflexivity].
Qed.

Lemma str_nat_no_t : forall k, ExtraSpec.has_char "t" (Py.str_nat k) = false.
Proof. intro k. apply digits_no_t, Facts.str_nat_digits. Qed.

Ltac no_t :=
  repeat first [ rewrite has_char_app | rewrite str_nat_no_t
               | progress cbn -[Py.str_nat] ]; reflexivity.

Lemma construct_equation_no_t : forall n info r,
  construct_recurrence n info = inr r -> ExtraSpec.has_char "t" (equation r) = false.
Proof.
  intros n info r H. unfold construct_recurrence in H.
  destruct info as [ri|].
  2:{ injection H as <-. unfold analyze_iterative.
      destruct (count_loop_depth n 0) as [|[|[|d]]]; cbn [equation]; try reflexivity; no_t. }
  destruct (negb (Classifier.has_recursion ri)).
  { injection H as <-. unfold analyze_iterative.
    destruct (count_loop_depth n 0) as [|[|[|d]]]; cbn [equation]; try reflexivity; no_t. }
  destruct (String.eqb (ri_pattern_type ri) "linear"); [injection H as <-; reflexivity|].
  destruct (String.eqb (ri_pattern_type ri) "binary").
  { destruct (match first_function n with
              | Some f => match name_attr f with
                          | Some nm => inr (Py.contains "busqueda" (Py.lower nm)
                                            || Py.contains "search" (Py.lower nm)
                                            || Py.contains "binary" (Py.lower nm)
                                            || has_middle_calculation f)
                          | None => inl attribute_error
                          end
              | None => inr false
              end) as [e|[|]]; [discriminate| |]; injection H as <-; reflexivity. }
  destruct (String.eqb (ri_pattern_type ri) "divide_conquer").
  - destruct (recurrence_relation ri) as [rel|]; [|discriminate].
    destruct (match Py.search_aTnb rel with
              | Some (sa, sb) => (Py.int_of_digits sa, Py.int_of_digits sb)
              | None => (length (recursive_calls ri), 2%nat)
              end) as [a b].
    injection H as <-. cbn [equation].
    destruct (_ || _); no_t.
  - injection H as <-. cbn [equation]. no_t.
Qed.

Lemma contains_t_remove_spaces : forall p s,
  ExtraSpec.has_char "t" s = false -> Py.contains (String "t" p) (Cases.remove_spaces s) = false.
Proof.
  intros p s H. destruct (Py.contains (String "t" p) (Cases.remove_spaces s)) eqn:E; [|reflexivity].
  apply contains_has_char, has_char_remove_spaces in E. congruence.
Qed.

Lemma validate_ignores_t_free : forall hbs cnt d rec comp ast,
  ExtraSpec.has_char "t" rec = false ->
  Cases.validate_and_refine_type hbs cnt d rec comp ast
  = Cases.validate_and_refine_type hbs cnt d "" comp ast.
Proof.
  intros hbs cnt d rec comp ast H. unfold Cases.validate_and_refine_type.
  rewrite !contains_t_remove_spaces by exact H. reflexivity.
Qed.

(** X4: the equation built by [_construct_recurrence] never changes the outcome of [analyze_all_cases]: with a complexity given, passing that equation gives the same cases as passing no equation (the refinement looks for lower-case 't(n-1)', 't(n/2)'). *)
Theorem case_refinement_ignores_engine_equation : forall det hbs cnt n info r ast ty comp,
  construct_recurrence n info = inr r ->
  comp <> "" ->
  Cases.analyze_all_cases det hbs cnt ast ty (equation r) comp
  = Cases.analyze_all_cases det hbs cnt ast ty "" comp.
Proof.
  intros det hbs cnt n info r ast ty comp H Hc.
  pose proof (construct_equation_no_t _ _ _ H) as Ht.
  apply String.eqb_neq in Hc.
  unfold Cases.analyze_all_cases, Cases.resolved_type.
  rewrite Hc, !orb_true_r, validate_ignores_t_free by exact Ht. reflexivity.
Qed.

End RefinementProps.

Module GuiPathProps.
Import Classifier Asymptotic CaseDetect DirFold DetectorFacts.

Lemma detect_constant : forall nm ps b,
  has_loops (Function nm ps b) = false ->
  check_recursive_calls (Function nm ps b) nm = false ->
  detect_algorithm_type (Program [Function nm ps b]) = inr "constant".
Proof.
  intros nm ps b Hl Hr.
  pose proof (check_false_count_zero _ _ Hr) as Hc.
  assert (Hlp : has_loops (Program [Function nm ps b]) = false).
  { change (has_loops (Program [Function nm ps b]))
      with (is_loop (Program [Function nm ps b]) || (has_loops (Function nm ps b) || false)).
    rewrite Hl. reflexivity. }
  unfold detect_algorithm_type.
  cbn [has_recursion has_divide_conquer_pattern is_fibonacci_pattern any_exn func_name_of].
  rewrite Hr, Hc, Hlp, has_binary_search_pattern_false.
  destruct (Py.contains "fib" (Py.lower nm)); reflexivity.
Qed.

(** X5: a non-recursive function whose only loop is a [Repeat] (depth 1) gets the bound n from [AsymptoticAnalyzer.analyze], while [analyze_all_cases] with that equation and bound reports Θ(1) in all three cases. *)
Theorem repeat_only_loops_constant_cases : forall nm ps b,
  has_loops (Function nm ps b) = false ->
  check_recursive_calls (Function nm ps b) nm = false ->
  count_loop_depth (Function nm ps b) 0 = 1%nat ->
  AsymptoticApi.analyze (Program [Function nm ps b]) None
  = inr (mk_rec "T(n) = cn" None None "c" [("T(0)", "c")] "Loop Analysis",
         mk_bound "n" "Θ" 95)
  /\ analyze_all_cases (Program [Function nm ps b]) "unknown" "T(n) = cn" "n"
     = inr (Cases.mk_case "best" "Θ(1)", Cases.mk_case "worst" "Θ(1)",
            Cases.mk_case "average" "Θ(1)").
Proof.
  intros nm ps b Hl Hr Hd. split.
  - unfold AsymptoticApi.analyze, construct_recurrence, analyze_iterative.
    change (count_loop_depth (Program [Function nm ps b]) 0)
      with (fold_right Nat.max 0%nat [count_loop_depth (Function nm ps b) 0]).
    rewrite Hd. reflexivity.
  - unfold analyze_all_cases, Cases.analyze_all_cases, Cases.resolved_type.
    rewrite detect_constant by assumption.
    unfold Cases.validate_and_refine_type.
    rewrite has_binary_search_pattern_false. reflexivity.
Qed.

Lemma exclusive_pair_info : forall nm ps b,
  length (find_recursive_calls (Function nm ps b) nm) = 2%nat ->
  has_mutually_exclusive_recursive_returns (Function nm ps b) = true ->
  Classifier.has_recursion (analyze_recursive_algorithm nm ps b) = true
  /\ length (recursive_calls (analyze_recursive_algorithm nm ps b)) = 2%nat
  /\ ri_pattern_type (analyze_recursive_algorithm nm ps b) = "binary_exclusive".
Proof.
  intros nm ps b Hl He. unfold analyze_recursive_algorithm.
  rewrite He.
  destruct (find_recursive_calls (Function nm ps b) nm) as [|c1 [|c2 [|c3 r]]];
    try discriminate. repeat split.
Qed.

(** X6: a function with two recursive calls in mutually exclusive branches gets 'T(n) = 2T(n-1) + c' and Θ(2^n) from [analyze], and [analyze_all_cases] with these values reports the Fibonacci worst and average cases. *)
Theorem exclusive_pair_reported_fibonacci : forall nm ps b,
  length (find_recursive_calls (Function nm ps b) nm) = 2%nat ->
  has_mutually_exclusive_recursive_returns (Function nm ps b) = true ->
  (2 <= count_recursive_calls (Function nm ps b) nm)%nat ->
  AsymptoticApi.analyze (Program [Function nm ps b])
    (Some (analyze_recursive_algorithm nm ps b))
  = inr (mk_rec "T(n) = 2T(n-1) + c" (Some 2) None "c"
           [("T(0)", "c"); ("T(1)", "c")] "Substitution",
         mk_bound "2^n" "Θ" 95)
  /\ analyze_all_cases (Program [Function nm ps b]) "unknown" "T(n) = 2T(n-1) + c" "2^n"
     = inr (Cases.mk_case "best" "2^n", Cases.mk_case "worst" "Θ(2ⁿ) ≈ Θ(2ⁿ)",
            Cases.mk_case "average" "Θ(2ⁿ) ≈ Θ(2ⁿ)").
Proof.
  intros nm ps b Hl He Hc.
  destruct (exclusive_pair_info _ _ _ Hl He) as (Hh & Hn & Hp). split.
  - unfold AsymptoticApi.analyze, construct_recurrence.
    rewrite Hh, Hn, Hp. reflexivity.
  - unfold analyze_all_cases, Cases.analyze_all_cases, Cases.resolved_type.
    unfold Cases.validate_and_refine_type.
    rewrite has_binary_search_pattern_false.
    cbn [count_active_recursive_calls func_name_of].
    apply Nat.leb_le in Hc. rewrite Hc.
    destruct (detect_algorithm_type (Program [Function nm ps b])) as [e|t];
      [reflexivity|].
    destruct (negb (String.eqb t "unknown")); reflexivity.
Qed.

Lemma ln_1_div : (ln (INR 1) / ln (INR 2) = 0)%R.
Proof. simpl INR. rewrite ln_1. unfold Rdiv. apply Rmult_0_l. Qed.

(** X7: for a 'binary' recursion whose function name contains 'search', [analyze] on the [Program] gives 'T(n) = T(n/2) + c' and Θ(log n), while [analyze_function_node] on the [Function] itself gives 'T(n) = T(n-1) + T(n-2) + c' and Θ(2^n). *)
Theorem search_named_binary_program_vs_function : forall nm ps b rest ri,
  Classifier.has_recursion ri = true ->
  ri_pattern_type ri = "binary" ->
  Py.contains "search" (Py.lower nm) = true ->
  AsymptoticApi.analyze (Program (Function nm ps b :: rest)) (Some ri)
  = inr (mk_rec "T(n) = T(n/2) + c" (Some 1) (Some 2) "c"
           [("T(1)", "c"); ("T(0)", "c")] "Master Theorem",
         mk_bound "log n" "Θ" 95)
  /\ analyze_function_node (Function nm ps b) (Some ri)
     = inr (mk_rec "T(n) = T(n-1) + T(n-2) + c" (Some 2) None "c"
              [("T(0)", "c"); ("T(1)", "c")] "Recurrence Tree",
            mk_bound "2^n" "Θ" 90).
Proof.
  intros nm ps b rest ri Hh Hp Hs. split.
  - assert (Hc : construct_recurrence (Program (Function nm ps b :: rest)) (Some ri)
                 = inr (mk_rec "T(n) = T(n/2) + c" (Some 1) (Some 2) "c"
                          [("T(1)", "c"); ("T(0)", "c")] "Master Theorem")).
    { unfold construct_recurrence. rewrite Hh, Hp. cbn [negb first_function name_attr].
      rewrite Hs, orb_true_r. reflexivity. }
    unfold AsymptoticApi.analyze. rewrite Hc.
    unfold solve_recurrence, apply_master_theorem.
    cbn [method_used ra rb f_n String.eqb Ascii.eqb Bool.eqb Nat.eqb orb].
    rewrite ln_1_div. replace (master_degree "c") with 0%nat by reflexivity.
    unfold master_epsilon. simpl INR.
    destruct (Rlt_dec 0 (0 - 1 / 100)) as [H|H]; [lra|].
    destruct (Rlt_dec (Rabs (0 - 0)) (1 / 100)) as [H'|H']; [reflexivity|].
    exfalso. apply H'. rewrite Rminus_0_r, Rabs_R0. lra.
  - unfold analyze_function_node, construct_recurrence.
    rewrite Hh, Hp. reflexivity.
Qed.

End GuiPathProps.

Module SolverProps.
Import Classifier Asymptotic RefinementProps.

Lemma digits_no_char : forall c s,
  Py.is_digit c = false -> Py.all_digits s = true -> ExtraSpec.has_char c s = false.
Proof.
  intros c s Hc. induction s as [|c' s IH]; simpl; intro H; [reflexivity|].
  apply andb_true_iff in H as [Hc' H]. rewrite IH by exact H. rewrite orb_false_r.
  destruct (Ascii.eqb_spec c' c) as [->|]; [congruence|reflexivity].
Qed.

Lemma str_nat_no_star : forall k, ExtraSpec.has_char "*" (Py.str_nat k) = false.
Proof. intro k. apply digits_no_char; [reflexivity | apply Facts.str_nat_digits]. Qed.

Lemma prefix_contains : forall p s, String.prefix p s = true -> Py.contains p s = true.
Proof. intros p s H. destruct s; cbn [Py.contains]; rewrite H; reflexivity. Qed.

Lemma contains_tail : forall a p s,
  Py.contains (String a p) s = true -> Py.contains p s = true.
Proof.
  intros a p s. induction s as [|c s IH]; intro H; [discriminate|].
  simpl in H. apply orb_true_iff in H as [H|H].
  - destruct (ascii_dec a c); [|discriminate].
    simpl. rewrite (prefix_contains _ _ H). apply orb_true_r.
  - simpl. rewrite (IH H). apply orb_true_r.
Qed.

Ltac no_star :=
  repeat first [ rewrite has_char_app | rewrite str_nat_no_star
               | progress cbn -[Py.str_nat] ]; reflexivity.

Lemma derive_no_star : forall ps calls ex r,
  derive_recurrence_relation ps calls ex = Some r -> ExtraSpec.has_char "*" r = false.
Proof.
  intros ps calls ex r H. unfold derive_recurrence_relation in H.
  destruct calls as [|c l]; [discriminate|]. cbv zeta in H.
  repeat match type of H with
         | context [if ?b then _ else _] => destruct b
         | context [match ?o with Some _ => _ | None => _ end] => destruct o
         end; injection H as <-; no_star.
Qed.

Lemma relation_no_star : forall nm ps b r,
  recurrence_relation (analyze_recursive_algorithm nm ps b) = Some r ->
  ExtraSpec.has_char "*" r = false.
Proof.
  intros nm ps b r. unfold analyze_recursive_algorithm.
  destruct (find_recursive_calls (Function nm ps b) nm) as [|c l]; [discriminate|].
  apply derive_no_star.
Qed.

(** X8: [RecurrenceSolver.solve_recurrence] returns n (for n >= 2) on every relation the classifier derives that contains 'T(n-1)', including 'T(n) = 2T(n-1) + O(1)': the classifier never writes '2*T(n-1)'. *)
Theorem solver_reads_classifier_relations_as_linear : forall nm ps b r n,
  recurrence_relation (analyze_recursive_algorithm nm ps b) = Some r ->
  (2 <= n)%Z ->
  Py.contains "T(n-1)" r = true ->
  RecSolver.solve_recurrence r n = n.
Proof.
  intros nm ps b r n Hr Hn Ht. unfold RecSolver.solve_recurrence.
  assert (Hs : Py.contains "2*T(n-1)" r = false).
  { destruct (Py.contains "2*T(n-1)" r) eqn:E; [|reflexivity].
    pose proof (relation_no_star _ _ _ _ Hr) as Hno.
    apply contains_tail in E. apply contains_has_char in E. congruence.
  }
  rewrite Ht, Hs. destruct (Z.leb_spec n 1); [lia|]. reflexivity.
Qed.
End SolverProps.

Module CacheProps.
Import Classifier MathEngine RecSolver.

(** X9: the classifier's cache key is the name and the body length, so a second [analyze_recursive_algorithm] on a same-named function with a body of the same length returns the first analysis. *)
Theorem cache_key_ignores_body_content : forall cache nm ps1 b1 ps2 b2,
  length b1 = length b2 ->
  fst (analyze_cached (snd (analyze_cached cache nm ps1 b1)) nm ps2 b2)
  = fst (analyze_cached cache nm ps1 b1).
Proof.
  intros cache nm ps1 b1 ps2 b2 Hl. unfold analyze_cached.
  replace (generate_function_key nm b2) with (generate_function_key nm b1)
    by (unfold generate_function_key; rewrite Hl; reflexivity).
  destruct (get_item (generate_function_key nm b1) cache) as [a|] eqn:E.
  - cbn [fst snd]. rewrite E. reflexivity.
  - cbn [fst snd]. rewrite Facts.get_item_set_item, String.eqb_refl. reflexivity.
Qed.

Section StatFold.
Variable g : string * rec_info -> string.
Variable step : list (string * nat) -> string * rec_info -> list (string * nat).
Hypothesis step_eq : forall d kv,
  step d kv = set_item (g kv) (match get_item (g kv) d with Some c => c | None => 0 end + 1)%nat d.

Lemma list_sum_set_item : forall (d : list (string * nat)) k v,
  (list_sum (map snd (set_item k v d)) + match get_item k d with Some c => c | None => 0 end
   = list_sum (map snd d) + v)%nat.
Proof.
  induction d as [|[k' v'] d IH]; intros k v; simpl; [lia|].
  destruct (String.eqb k' k); simpl; [lia|]. specialize (IH k v). lia.
Qed.

Lemma stat_sum : forall l d,
  list_sum (map snd (fold_left step l d)) = (list_sum (map snd d) + length l)%nat.
Proof.
  induction l as [|kv l IH]; intro d; simpl; [lia|].
  rewrite IH, step_eq. pose proof (list_sum_set_item d (g kv)
    (match get_item (g kv) d with Some c => c | None => 0 end + 1)%nat). lia.
Qed.

Lemma stat_get : forall p l d,
  match get_item p (fold_left step l d) with Some c => c | None => 0 end
  = (match get_item p d with Some c => c | None => 0 end
     + length (filter (fun kv => String.eqb (g kv) p) l))%nat.
Proof.
  intro p. induction l as [|kv l IH]; intro d; simpl; [lia|].
  rewrite IH, step_eq, Facts.get_item_set_item.
  destruct (String.eqb_spec (g kv) p) as [<-|]; simpl; lia.
Qed.

End StatFold.

Lemma Forall_set_item : forall {V} (P : string * V -> Prop) d k v,
  Forall P d -> P (k, v) -> Forall P (set_item k v d).
Proof.
  intros V P d k v. induction 1 as [|[k' v'] d Hx Hd IH]; intro Hkv; simpl.
  - constructor; [exact Hkv | constructor].
  - destruct (String.eqb k' k); constructor; auto.
Qed.

Lemma recursion_iff_pattern : forall nm ps b,
  has_recursion (analyze_recursive_algorithm nm ps b)
  = negb (String.eqb (ri_pattern_type (analyze_recursive_algorithm nm ps b)) "none").
Proof.
  intros nm ps b. unfold analyze_recursive_algorithm.
  destruct (find_recursive_calls (Function nm ps b) nm) as [|c [|c2 [|c3 l]]];
    try reflexivity; cbn [has_recursion ri_pattern_type]; unfold analyze_call_pattern;
    cbv zeta; cbn [length];
    repeat match goal with |- context [if ?x then _ else _] => destruct x end;
    reflexivity.
Qed.

Lemma cache_after_values : forall fs,
  Forall (fun kv => has_recursion (snd kv)
                    = negb (String.eqb (ri_pattern_type (snd kv)) "none")) (cache_after fs).
Proof.
  intro fs. unfold cache_after. generalize (@nil (string * rec_info)) (Forall_nil
    (fun kv : string * rec_info => has_recursion (snd kv)
       = negb (String.eqb (ri_pattern_type (snd kv)) "none"))).
  induction fs as [|[[nm ps] b] fs IH]; intros acc Hacc; simpl; [exact Hacc|].
  apply IH. unfold analyze_cached.
  destruct (get_item (generate_function_key nm b) acc); [exact Hacc|].
  apply Forall_set_item; [exact Hacc|]. apply recursion_iff_pattern.
Qed.

Lemma filter_split : forall (l : list (string * rec_info)),
  Forall (fun kv => has_recursion (snd kv)
                    = negb (String.eqb (ri_pattern_type (snd kv)) "none")) l ->
  (length (filter (fun kv => has_recursion (snd kv)) l)
   + length (filter (fun kv => String.eqb (ri_pattern_type (snd kv)) "none") l)
   = length l)%nat.
Proof.
  induction 1 as [|kv l Hkv Hl IH]; simpl; [reflexivity|].
  rewrite Hkv. destruct (String.eqb _ _); simpl; lia.
Qed.

(** X10: for the cache built by any sequence of analyses, [get_analysis_statistics] has cache_size = total, the pattern distribution sums to the total, and recursive functions plus the 'none' count equal the total. *)
Theorem statistics_consistent : forall fs,
  let s := get_analysis_statistics (cache_after fs) in
  cache_size s = total_functions_analyzed s
  /\ list_sum (map snd (pattern_distribution s)) = total_functions_analyzed s
  /\ (recursive_functions_found s
      + match get_item "none" (pattern_distribution s) with Some c => c | None => 0 end
      = total_functions_analyzed s)%nat.
Proof.
  intro fs. unfold get_analysis_statistics. cbn zeta.
  cbn [cache_size total_functions_analyzed pattern_distribution recursive_functions_found].
  split; [reflexivity|]. split.
  - rewrite (stat_sum (fun kv => ri_pattern_type (snd kv))) by (intros; reflexivity).
    reflexivity.
  - rewrite (stat_get (fun kv => ri_pattern_type (snd kv))) by (intros; reflexivity).
    cbn [get_item]. apply filter_split, cache_after_values.
Qed.

End CacheProps.

Module CallCountProps.
Import Classifier Asymptotic MathEngine RecSolver GuiPathProps.

Lemma multiple_info : forall nm ps b,
  (3 <= length (find_recursive_calls (Function nm ps b) nm))%nat ->
  has_mutually_exclusive_recursive_returns (Function nm ps b) = false ->
  has_recursion (analyze_recursive_algorithm nm ps b) = true
  /\ recursive_calls (analyze_recursive_algorithm nm ps b)
     = find_recursive_calls (Function nm ps b) nm
  /\ ri_pattern_type (analyze_recursive_algorithm nm ps b) = "multiple"
  /\ recurrence_relation (analyze_recursive_algorithm nm ps b)
     = Some ("T(n) = " ++ Py.str_nat (length (find_recursive_calls (Function nm ps b) nm))
             ++ "T(n-1) + O(1)").
Proof.
  intros nm ps b Hk He. unfold analyze_recursive_algorithm. rewrite He.
  destruct (find_recursive_calls (Function nm ps b) nm) as [|c1 [|c2 [|c3 l]]];
    cbn [length] in Hk; try lia.
  repeat split.
Qed.

Lemma multiple_pattern : forall nm ps b,
  (3 <= length (find_recursive_calls (Function nm ps b) nm))%nat ->
  ri_pattern_type (analyze_recursive_algorithm nm ps b) = "multiple".
Proof.
  intros nm ps b Hk. unfold analyze_recursive_algorithm.
  destruct (find_recursive_calls (Function nm ps b) nm) as [|c1 [|c2 [|c3 l]]];
    cbn [length] in Hk; try lia. reflexivity.
Qed.

(** X11: a function with k recursive calls (3 <= k <= 9) and no exclusive branches gets the estimated complexity 'O(n)' from the classifier, while [analyze_function_node] gives 'T(n) = kT(n-1) + c' and Θ(k^n). *)
Theorem multiple_calls_estimate_vs_engine : forall nm ps b k,
  length (find_recursive_calls (Function nm ps b) nm) = k ->
  (3 <= k <= 9)%nat ->
  has_mutually_exclusive_recursive_returns (Function nm ps b) = false ->
  estimated_complexity (analyze_recursive_algorithm nm ps b) = "O(n)"
  /\ analyze_function_node (Function nm ps b) (Some (analyze_recursive_algorithm nm ps b))
     = inr (mk_rec ("T(n) = " ++ Py.str_nat k ++ "T(n-1) + c") (Some k) None "c"
              [("T(0)", "c"); ("T(1)", "c")] "Substitution",
            mk_bound (Py.str_nat k ++ "^n") "Θ" 95).
Proof.
  intros nm ps b k Hk Hr He.
  destruct (multiple_info nm ps b ltac:(lia) He) as (Hh & Hc & Hp & Hrel).
  rewrite Hk in Hrel.
  assert (Hn : length (recursive_calls (analyze_recursive_algorithm nm ps b)) = k)
    by (rewrite Hc; exact Hk).
  split.
  - unfold estimated_complexity. rewrite Hrel.
    assert (k = 3 \/ k = 4 \/ k = 5 \/ k = 6 \/ k = 7 \/ k = 8 \/ k = 9)%nat as Hcases by lia.
    destruct Hcases as [->|[->|[->|[->|[->|[->| ->]]]]]]; reflexivity.
  - unfold analyze_function_node, construct_recurrence. rewrite Hh, Hn, Hp.
    assert (k = 3 \/ k = 4 \/ k = 5 \/ k = 6 \/ k = 7 \/ k = 8 \/ k = 9)%nat as Hcases by lia.
    destruct Hcases as [->|[->|[->|[->|[->|[->| ->]]]]]]; reflexivity.
Qed.

(** X12: for a function whose metadata is the classifier's analysis, [_fallback_complexity] gives None when it has no recursive call or three or more, and 'O(log(n))' when it has two calls in mutually exclusive branches. *)
Theorem fallback_by_call_count : forall md nm ps b,
  get_item nm md = Some (analyze_recursive_algorithm nm ps b) ->
  nm <> "" ->
  ((length (find_recursive_calls (Function nm ps b) nm) = 0
    \/ 3 <= length (find_recursive_calls (Function nm ps b) nm))%nat ->
   MathFallback.fallback_complexity md (Some nm) = None)
  /\ (length (find_recursive_calls (Function nm ps b) nm) = 2%nat ->
      has_mutually_exclusive_recursive_returns (Function nm ps b) = true ->
      MathFallback.fallback_complexity md (Some nm) = Some "O(log(n))").
Proof.
  intros md nm ps b Hget Hne. apply String.eqb_neq in Hne.
  unfold MathFallback.fallback_complexity. rewrite Hne, Hget. cbv zeta. split.
  - intros [H0 | H3].
    + unfold analyze_recursive_algorithm.
      destruct (find_recursive_calls (Function nm ps b) nm); [reflexivity | discriminate].
    + rewrite (multiple_pattern _ _ _ H3). reflexivity.
  - intros H2 He. destruct (exclusive_pair_info _ _ _ H2 He) as (_ & _ & Hp).
    rewrite Hp. reflexivity.
Qed.

End CallCountProps.

Module FileInputProps.
Import Orchestrator MathEngine FileInput.

(** X13: after a successful [process_file] the result is [process_code] of the file's text under its basename, and a later call on the same path returns it again without reading the file. *)
Theorem process_file_caches_success : forall (tree : Type) (et : tree) pc1 rf1 pc2 rf2
    cache path code,
  get_item path cache = None ->
  rf1 path = inr code ->
  fst (process_file tree et pc1 rf1 cache path) = pc1 code (basename path)
  /\ process_file tree et pc2 rf2 (snd (process_file tree et pc1 rf1 cache path)) path
     = (pc1 code (basename path), snd (process_file tree et pc1 rf1 cache path)).
Proof.
  intros tree et pc1 rf1 pc2 rf2 cache path code Hm Hr.
  unfold process_file. rewrite Hm, Hr. cbn [fst snd]. split; [reflexivity|].
  rewrite Facts.get_item_set_item, String.eqb_refl. reflexivity.
Qed.

(** A call of [process_file] keeps every cached entry, and adds one
    for its path exactly when it reads the file. *)
Lemma process_file_cache_step : forall (tree : Type) (et : tree) pc rf cache path q,
  get_item q (snd (process_file tree et pc rf cache path))
  = match get_item q cache with
    | Some r => Some r
    | None =>
        if String.eqb path q then
          match rf path with inl _ => None | inr code => Some (pc code (basename path)) end
        else None
    end.
Proof.
  intros tree et pc rf cache path q. unfold process_file.
  destruct (get_item path cache) as [r|] eqn:Hp.
  - cbn [snd]. destruct (get_item q cache) eqn:Hq; [reflexivity|].
    destruct (String.eqb_spec path q) as [->|]; [congruence | reflexivity].
  - destruct (rf path) as [e|code]; cbn [snd].
    + destruct (get_item q cache); [reflexivity|].
      destruct (String.eqb path q); reflexivity.
    + rewrite Facts.get_item_set_item.
      destruct (String.eqb_spec path q) as [->|].
      * rewrite Hp. reflexivity.
      * destruct (get_item q cache); reflexivity.
Qed.

(** X14: over any sequence of [process_file] calls on one orchestrator
    (each with the file system of its moment), a cached result is never
    replaced, and a path ends up in the cache exactly when it was cached
    before or one of the calls on it read the file successfully: a read
    error is never cached. *)
Theorem process_files_cache_keys : forall (tree : Type) (et : tree) pc calls cache q,
  (forall r, get_item q cache = Some r ->
     get_item q (snd (process_files tree et pc cache calls)) = Some r) /\
  ((exists r, get_item q (snd (process_files tree et pc cache calls)) = Some r) <->
   (exists r, get_item q cache = Some r) \/
   (exists rf code, In (q, rf) calls /\ rf q = inr code)).
Proof.
  intros tree et pc calls. induction calls as [|[path rf] rest IH]; intros cache q.
  - cbn [process_files snd]. split; [tauto|].
    split; [tauto|]. intros [H|(rf & code & [] & _)]; exact H.
  - cbn [process_files].
    destruct (process_file tree et pc rf cache path) as [r cache'] eqn:Hpf.
    destruct (process_files tree et pc cache' rest) as [rs cache''] eqn:Hrest.
    cbn [snd].
    pose proof (process_file_cache_step tree et pc rf cache path q) as Hstep.
    rewrite Hpf in Hstep. cbn [snd] in Hstep.
    destruct (IH cache' q) as [Hkeep Hiff]. rewrite Hrest in Hkeep, Hiff. cbn [snd] in Hkeep, Hiff.
    split.
    + intros r0 H0. apply Hkeep. rewrite Hstep, H0. reflexivity.
    + rewrite Hiff. split.
      * intros [[r0 H0]|(rf0 & code & Hin & Hr)].
        -- rewrite Hstep in H0.
           destruct (get_item q cache) as [r1|] eqn:Hc; [left; exists r1; reflexivity|].
           destruct (String.eqb_spec path q) as [<-|]; [|discriminate].
           destruct (rf path) as [|code] eqn:Hr; [discriminate|].
           right. exists rf, code. split; [left; reflexivity | exact Hr].
        -- right. exists rf0, code. split; [right; exact Hin | exact Hr].
      * intros [[r0 H0]|(rf0 & code & [Heq|Hin] & Hr)].
        -- left. exists r0. rewrite Hstep, H0. reflexivity.
        -- injection Heq as <- <-.
           left. rewrite Hstep, String.eqb_refl, Hr.
           destruct (get_item path cache); eexists; reflexivity.
        -- right. exists rf0, code. split; [exact Hin | exact Hr].
Qed.

(** X15: [os.path.basename] as modelled returns a suffix of the path that contains no '/'. *)
Theorem basename_last_component : forall p,
  Py.contains "/" (basename p) = false /\ exists pre, p = (pre ++ basename p)%string.
Proof.
  induction p as [|c r IH]; [split; [reflexivity | exists ""; reflexivity]|].
  cbn [basename]. destruct (Py.contains "/" r) eqn:Hr.
  - destruct IH as [IH1 [pre IH2]]. split; [exact IH1|].
    exists (String c pre). simpl. rewrite <- IH2. reflexivity.
  - destruct (Ascii.eqb_spec c "/") as [->|Hc].
    + split; [exact Hr|]. exists "/". reflexivity.
    + split; [|exists ""; reflexivity].
      cbn [Py.contains]. rewrite Hr, orb_false_r. cbn [String.prefix].
      destruct (ascii_dec "/" c); [congruence | reflexivity].
Qed.

End FileInputProps.

Module PrimeProps.
Import Asymptotic CaseDetect PrimeDetect DirFold.

Lemma or_exn_never_true : forall a b,
  a <> inr true -> b <> inr true -> or_exn a b <> inr true.
Proof. intros [e|[|]] b Ha Hb; simpl; congruence. Qed.

Lemma any_exn_never_true : forall {A} (f : A -> exn + bool) l,
  (forall x, f x <> inr true) -> any_exn f l <> inr true.
Proof.
  intros A f l Hf. induction l as [|x l IH]; simpl; [discriminate|].
  apply or_exn_never_true; auto.
Qed.

Lemma modulo_guard_never_true : forall n, has_modulo_guard_with_return n <> inr true.
Proof.
  intro n. unfold has_modulo_guard_with_return.
  apply (dir_fold_sim (fun a (_ : unit) => a <> inr true) _ _ _
           (fun _ => tt) (fun _ _ => tt) tt).
  - discriminate.
  - intros a1 [] a2 [] H1 H2. apply or_exn_never_true; assumption.
  - intros m. destruct m; try discriminate; apply any_exn_never_true;
      intros []; try discriminate; destruct (condition_has_modulo _); discriminate.
Qed.

(** X16: [_is_prime_like_pattern_safe] returns True exactly when the AST is a [Program] whose first function's name contains 'primo' or 'prime': the modulo-guard search can only raise or return False. *)
Theorem prime_test_only_by_name : forall ast,
  is_prime_like_pattern_safe ast = true
  <-> exists f rest nm, ast = Program (f :: rest) /\ func_name_of f = inr nm
      /\ (Py.contains "primo" (Py.lower nm) || Py.contains "prime" (Py.lower nm)) = true.
Proof.
  intro ast. unfold is_prime_like_pattern_safe, is_prime_like_pattern. split.
  - intro H.
    assert (Hm : forall x, match has_modulo_guard_with_return x with
                           | inr b => b | inl _ => false end = false).
    { intro x. pose proof (modulo_guard_never_true x).
      destruct (has_modulo_guard_with_return x) as [|[|]]; congruence. }
    destruct ast as [[|f rest]| | | | | | | | | | | | | | | | | | | |];
      try (rewrite Hm in H; discriminate).
    destruct (func_name_of f) as [e|nm] eqn:Hf; [discriminate|].
    destruct (_ || _) eqn:Hn; [|rewrite Hm in H; discriminate].
    exists f, rest, nm. auto.
  - intros (f & rest & nm & -> & Hf & Hn). rewrite Hf. cbv zeta. rewrite Hn. reflexivity.
Qed.

End PrimeProps.

Module LoopDepthProps.
Import Classifier Asymptotic Scenarios Facts.

(** X17: for every non-recursive function, the asymptotic engine uses
    Loop Analysis and its bound is determined by the maximum nesting
    depth d of the loops with a non-empty body (through [If] branches):
    Θ(1) for d = 0, Θ(n) for d = 1, Θ(n^d) for d >= 2. *)
Theorem iterative_bound_by_loop_depth : forall nm ps b,
  has_recursion (analyze_recursive_algorithm nm ps b) = false ->
  exists rec,
    analyze_function_node (Function nm ps b) (Some (analyze_recursive_algorithm nm ps b))
    = inr (rec, mk_bound (SpecSide.depth_complexity
                            (SpecSide.loop_nesting_depth (Function nm ps b))) "Θ" 95)
    /\ method_used rec = "Loop Analysis".
Proof.
  intros nm ps b H.
  pose proof (no_recursion_pattern_none nm ps b H) as Hp.
  exists (analyze_iterative (Function nm ps b)).
  unfold analyze_function_node. rewrite (construct_iterative _ _ H).
  rewrite solve_iterative, count_loop_depth_spec, Hp. simpl.
  split; [|reflexivity].
  destruct (SpecSide.loop_nesting_depth (Function nm ps b)) as [|[|d]]; reflexivity.
Qed.

(** Witness for X17: the nested loops of [stress] (depth 4). *)
Lemma iterative_bound_by_loop_depth_witness :
  has_recursion (analyze_recursive_algorithm "stress" ["n"]
    [For "i" (Number 1) (Var "n") [For "j" (Number 1) (Var "n")
       [For "k" (Number 1) (Var "n") [For "t" (Number 1) (Var "n")
          [Assignment (Name "s") (BinOp (Var "s") "+" (Number 1))]]]]]) = false /\
  exists rec,
    analyze_function_node (Function "stress" ["n"]
      [For "i" (Number 1) (Var "n") [For "j" (Number 1) (Var "n")
         [For "k" (Number 1) (Var "n") [For "t" (Number 1) (Var "n")
            [Assignment (Name "s") (BinOp (Var "s") "+" (Number 1))]]]]])
      (Some (analyze_recursive_algorithm "stress" ["n"]
        [For "i" (Number 1) (Var "n") [For "j" (Number 1) (Var "n")
           [For "k" (Number 1) (Var "n") [For "t" (Number 1) (Var "n")
              [Assignment (Name "s") (BinOp (Var "s") "+" (Number 1))]]]]]))
    = inr (rec, mk_bound "n^4" "Θ" 95) /\ method_used rec = "Loop Analysis".
Proof.
  split; [vm_compute; reflexivity|].
  apply (iterative_bound_by_loop_depth "stress" ["n"]); vm_compute; reflexivity.
Defined.

End LoopDepthProps.

Module PropertyWitnesses.
Import Classifier Asymptotic CaseDetect Scenarios MoreScenarios.
Import DetectorProps RefinementProps GuiPathProps SolverProps CacheProps CallCountProps FileInputProps.

Lemma linear_search_detection_raises_witness :
  detect_algorithm_type (Program [buscar])
  = inl (mk_exn "AttributeError" "'If' object has no attribute 'then_block'").
Proof.
  exact (linear_search_detection_raises "buscar" ["arr"; "n"; "x"] []
    (For "i" (Number 1) (Var "n")
       [If (Condition (ArrayAccess "arr" (Var "i")) "==" (Var "x"))
           [Return (Var "i")] None])
    [Return (Number (-1))] []
    (Condition (ArrayAccess "arr" (Var "i")) "==" (Var "x")) [Return (Var "i")] None []
    ltac:(reflexivity) ltac:(reflexivity) ltac:(reflexivity) ltac:(reflexivity)
    ltac:(vm_compute; reflexivity) ltac:(vm_compute; lia)).
Defined.

Lemma fibonacci_shape_unnamed_divide_conquer_witness :
  detect_algorithm_type (Program [Function "sucesion" ["n"] sucesion_body])
  = inr "divide_conquer".
Proof.
  exact (fibonacci_shape_unnamed_divide_conquer "sucesion" ["n"] sucesion_body
    ltac:(vm_compute; reflexivity) ltac:(vm_compute; reflexivity)
    ltac:(vm_compute; reflexivity)).
Defined.

Lemma case_refinement_ignores_engine_equation_witness :
  CaseDetect.analyze_all_cases (Program [factorial]) "unknown" "T(n) = T(n-1) + c" "n"
  = CaseDetect.analyze_all_cases (Program [factorial]) "unknown" "" "n".
Proof.
  exact (case_refinement_ignores_engine_equation detect_algorithm_type
    (fun a => inr (has_binary_search_pattern a)) count_active_recursive_calls
    (Program [factorial]) (Some (analyze_recursive_algorithm "factorial" ["n"] factorial_body))
    (mk_rec "T(n) = T(n-1) + c" (Some 1) None "c" [("T(0)", "c"); ("T(1)", "c")]
       "Substitution")
    (Program [factorial]) "unknown" "n"
    ltac:(vm_compute; reflexivity) ltac:(discriminate)).
Defined.

Lemma repeat_only_loops_constant_cases_witness :
  analyze_all_cases (Program [contar]) "unknown" "T(n) = cn" "n"
  = inr (Cases.mk_case "best" "Θ(1)", Cases.mk_case "worst" "Θ(1)",
         Cases.mk_case "average" "Θ(1)").
Proof.
  exact (proj2 (repeat_only_loops_constant_cases "contar" ["n"]
    [Assignment (Name "x") (Number 0);
     Repeat [Assignment (Name "x") (BinOp (Var "x") "+" (Number 1))]
            (Condition (Var "x") ">=" (Var "n"));
     Return (Var "x")]
    ltac:(vm_compute; reflexivity) ltac:(vm_compute; reflexivity)
    ltac:(vm_compute; reflexivity))).
Defined.

Lemma exclusive_pair_reported_fibonacci_witness :
  analyze_all_cases (Program [busqueda_binaria]) "unknown" "T(n) = 2T(n-1) + c" "2^n"
  = inr (Cases.mk_case "best" "2^n", Cases.mk_case "worst" "Θ(2ⁿ) ≈ Θ(2ⁿ)",
         Cases.mk_case "average" "Θ(2ⁿ) ≈ Θ(2ⁿ)").
Proof.
  exact (proj2 (exclusive_pair_reported_fibonacci "busqueda_binaria"
    ["arr"; "izq"; "der"; "x"] busqueda_binaria_body
    ltac:(vm_compute; reflexivity) ltac:(vm_compute; reflexivity)
    ltac:(vm_compute; lia))).
Defined.

Lemma search_named_binary_program_vs_function_witness :
  analyze_function_node (Function "search" ["n"] search_body)
    (Some (analyze_recursive_algorithm "search" ["n"] search_body))
  = inr (mk_rec "T(n) = T(n-1) + T(n-2) + c" (Some 2) None "c"
           [("T(0)", "c"); ("T(1)", "c")] "Recurrence Tree",
         mk_bound "2^n" "Θ" 90).
Proof.
  exact (proj2 (search_named_binary_program_vs_function "search" ["n"] search_body []
    (analyze_recursive_algorithm "search" ["n"] search_body)
    ltac:(vm_compute; reflexivity) ltac:(vm_compute; reflexivity)
    ltac:(vm_compute; reflexivity))).
Defined.

Lemma solver_reads_classifier_relations_as_linear_witness :
  RecSolver.solve_recurrence "T(n) = 2T(n-1) + O(1)" 5 = 5%Z.
Proof.
  exact (solver_reads_classifier_relations_as_linear "doble" ["n"] doble_body
    "T(n) = 2T(n-1) + O(1)" 5 ltac:(vm_compute; reflexivity) ltac:(lia)
    ltac:(vm_compute; reflexivity)).
Defined.

Lemma cache_key_ignores_body_content_witness :
  Classifier.has_recursion
    (analyze_recursive_algorithm "factorial" ["n"] [Return (Number 1)]) = false
  /\ Classifier.has_recursion (fst (RecSolver.analyze_cached
       (snd (RecSolver.analyze_cached [] "factorial" ["n"] factorial_body))
       "factorial" ["n"] [Return (Number 1)])) = true.
Proof.
  split; [vm_compute; reflexivity|].
  rewrite (cache_key_ignores_body_content [] "factorial" ["n"] factorial_body ["n"]
    [Return (Number 1)] ltac:(reflexivity)).
  vm_compute. reflexivity.
Defined.

Lemma multiple_calls_estimate_vs_engine_witness :
  RecSolver.estimated_complexity (analyze_recursive_algorithm "triple" ["n"] triple_body)
  = "O(n)".
Proof.
  exact (proj1 (multiple_calls_estimate_vs_engine "triple" ["n"] triple_body 3
    ltac:(vm_compute; reflexivity) ltac:(lia) ltac:(vm_compute; reflexivity))).
Defined.

Lemma fallback_by_call_count_witness :
  MathFallback.fallback_complexity
    [("busqueda_binaria", analyze_recursive_algorithm "busqueda_binaria"
                            ["arr"; "izq"; "der"; "x"] busqueda_binaria_body)]
    (Some "busqueda_binaria") = Some "O(log(n))".
Proof.
  exact (proj2 (fallback_by_call_count
    [("busqueda_binaria", analyze_recursive_algorithm "busqueda_binaria"
                            ["arr"; "izq"; "der"; "x"] busqueda_binaria_body)]
    "busqueda_binaria" ["arr"; "izq"; "der"; "x"] busqueda_binaria_body
    ltac:(vm_compute; reflexivity) ltac:(discriminate))
    ltac:(vm_compute; reflexivity) ltac:(vm_compute; reflexivity)).
Defined.

Lemma process_file_caches_success_witness :
  fst (FileInput.process_file unit tt scenario_process_code
         (fun p => if String.eqb p "algoritmos/factorial.txt" then inr factorial_src
                   else inl (mk_exn "FileNotFoundError" "No such file or directory"))
         [] "algoritmos/factorial.txt")
  = scenario_process_code factorial_src "factorial.txt".
Proof.
  exact (proj1 (process_file_caches_success unit tt scenario_process_code
    (fun p => if String.eqb p "algoritmos/factorial.txt" then inr factorial_src
              else inl (mk_exn "FileNotFoundError" "No such file or directory"))
    scenario_process_code (fun _ => inl (mk_exn "FileNotFoundError" "No such file or directory"))
    [] "algoritmos/factorial.txt" factorial_src
    ltac:(reflexivity) ltac:(reflexivity))).
Defined.

Lemma process_files_cache_keys_witness :
  exists r, MathEngine.get_item "algoritmos/factorial.txt"
    (snd (FileInput.process_files unit tt scenario_process_code []
       [("algoritmos/factorial.txt",
         fun _ => inl (mk_exn "FileNotFoundError" "No such file or directory"));
        ("algoritmos/factorial.txt", fun _ => inr factorial_src)]))
  = Some r.
Proof.
  apply (proj2 (proj2 (process_files_cache_keys unit tt scenario_process_code
    [("algoritmos/factorial.txt",
      fun _ => inl (mk_exn "FileNotFoundError" "No such file or directory"));
     ("algoritmos/factorial.txt", fun _ => inr factorial_src)]
    [] "algoritmos/factorial.txt"))).
  right. exists (fun _ : string => @inr exn string factorial_src), factorial_src.
  split; [right; left; reflexivity | reflexivity].
Defined.

End PropertyWitnesses.
